(** * GSeal Lite mock server: a shallow embedding of [gseal_lite_server.py]

    The module hosts three FastAPI endpoints in one process.  [/start-test]
    posts to [/mock-gseal-api] through an in-process HTTP client,
    [/mock-gseal-api] answers at once and leaves a task on the event loop,
    and that task sleeps one second and posts to [/app-webhook-listener].

    Python values that travel as JSON are trees of type [json]; a
    [Dict[str, Any]] is a [gmap string json].  Handlers are computations in
    [IO]: they thread a [world] (the chronological trace of observable
    effects and the tasks left on the loop) and may raise an exception. *)

From Stdlib Require Import ZArith Ascii String Floats.
From stdpp Require Import gmap strings list fin_maps pretty.

Open Scope Z_scope.

(** ** JSON values, as [json.loads] builds them *)

#[warnings="-register-all"]
Inductive json : Type :=
| JNull                              (* None *)
| JBool (b : bool)
| JInt (n : Z)
| JFloat (f : float)
| JStr (s : string)
| JList (l : list json)
| JDict (d : gmap string json).

(** [Dict[str, Any]] *)
Abbreviation dict := (gmap string json).

(** A [str] is kept as the bytes of its UTF-8 encoding.  A lone surrogate,
    which an escape of a request body can bring in, has no such encoding:
    it is kept as the three bytes the same scheme would give it, a
    sequence that UTF-8 forbids.  [encodable s] says that
    [s.encode("utf-8")] succeeds: the bytes are well-formed UTF-8. *)
Definition utf8_step (state : nat * N * N) (b : N) : option (nat * N * N) :=
  match state with
  | (O, _, _) =>
      if (b <? 128)%N then Some (O, 0, 0)%N
      else if ((194 <=? b) && (b <=? 223))%N then Some (1%nat, 128, 191)%N
      else if (b =? 224)%N then Some (2%nat, 160, 191)%N
      else if (b =? 237)%N then Some (2%nat, 128, 159)%N
      else if ((225 <=? b) && (b <=? 239))%N then Some (2%nat, 128, 191)%N
      else if (b =? 240)%N then Some (3%nat, 144, 191)%N
      else if ((241 <=? b) && (b <=? 243))%N then Some (3%nat, 128, 191)%N
      else if (b =? 244)%N then Some (3%nat, 128, 143)%N
      else None
  | (S pending, lo, hi) =>
      if ((lo <=? b) && (b <=? hi))%N then Some (pending, 128, 191)%N else None
  end.

Fixpoint utf8_from (state : nat * N * N) (s : string) : bool :=
  match s with
  | EmptyString => match state with (O, _, _) => true | _ => false end
  | String a rest =>
      match utf8_step state (N_of_ascii a) with
      | Some state' => utf8_from state' rest
      | None => false
      end
  end.

Definition encodable (s : string) : bool := utf8_from (O, 0, 0)%N s.

(** [json.dumps(v, allow_nan=False, ensure_ascii=False).encode("utf-8")]
    succeeds: no float is NaN or an infinity, and every string, keys
    included, can be encoded. *)
Fixpoint json_compliant (v : json) : bool :=
  match v with
  | JFloat f => PrimFloat.is_finite f
  | JStr s => encodable s
  | JList l => forallb json_compliant l
  | JDict d =>
      map_fold (λ k x acc, encodable k && json_compliant x && acc) true d
  | _ => true
  end.

(** The number of nodes of a document. *)
Fixpoint json_size (v : json) : nat :=
  match v with
  | JList l => S (foldr (λ x acc, json_size x + acc)%nat O l)
  | JDict d => S (map_fold (λ _ x acc, json_size x + acc)%nat O d)
  | _ => 1%nat
  end.

Definition is_none (v : json) : bool :=
  match v with JNull => true | _ => false end.


(** ** The libraries under the module

    What the code takes from Pydantic, FastAPI and httpx without fixing a
    version.  The module itself asks which Pydantic is installed
    ([hasattr(model, "model_dump")]); the two major versions differ in how
    they treat a value that is not already of the annotated type (version 1
    turns a list of pairs into a dict and a number into a str, version 2
    refuses both), so those coercions are fields here.  A value of the
    annotated type is kept as it is by both, and [None] is refused for a
    field that is not [Optional] by both: that part is written out in
    [as_dict], [as_opt_dict] and [as_str] below. *)

Class Framework := {
  has_model_dump : bool;                  (* Pydantic 2 *)
  lax_dict : json → option dict;          (* other value given for a Dict[str, Any] *)
  lax_str : json → option string;         (* other value given for a str *)
  error_detail : string → option json → json;
                                          (* "detail" of the 422 answer of a path *)
  json_dumps : json → string;             (* text of a JSON body *)
}.

(** ** HTTP responses and exceptions *)

(** A body is kept by what [Response.json()] makes of it: a JSON document,
    or text that does not parse. *)
Inductive content_t :=
| Json (j : json)
| Text (s : string).

Record Response := { status_code : Z; content : content_t }.

Inductive exn :=
| HTTPStatusError (status : Z)      (* Response.raise_for_status *)
| ValueError                        (* Response.json on a body that is not JSON *)
| TransportError (msg : string).    (* httpx: connection failure, timeout *)

(** ** Observable effects *)

(** A coroutine handed to [asyncio.create_task].  The module creates only
    [dispatch_webhook(webhook_payload)]. *)
Inductive coroutine :=
| Dispatch_webhook (webhook_payload : dict).

Inductive event :=
| Info (msg : string) (args : list json)                      (* logger.info *)
| Sleep (seconds : Z)                                         (* asyncio.sleep *)
| Post (url : string) (body : json) (timeout : Z)             (* client.post *)
| Never_retrieved (e : exn).          (* the loop reports a task that raised *)

Record world := { trace : list event; tasks : list coroutine }.

Inductive outcome (A : Type) :=
| Return (a : A)
| Raise (e : exn).
Arguments Return {A} a.
Arguments Raise {A} e.

Definition IO (A : Type) : Type := world → outcome A * world.

Definition io_ret {A} (a : A) : IO A := λ w, (Return a, w).

Definition io_bind {A B} (m : IO A) (k : A → IO B) : IO B :=
  λ w, match m w with
       | (Return a, w') => k a w'
       | (Raise e, w') => (Raise e, w')
       end.

Definition raise {A} (e : exn) : IO A := λ w, (Raise e, w).

(** [try: m  except ValueError: h].  Another exception passes through. *)
Definition try_except_ValueError {A} (m h : IO A) : IO A :=
  λ w, match m w with
       | (Raise ValueError, w') => h w'
       | r => r
       end.

Declare Scope io_scope.
Delimit Scope io_scope with io.
Notation "x <- m ;; k" := (io_bind m (λ x, k))
  (at level 100, m at next level, right associativity) : io_scope.
Notation "m ;; k" := (io_bind m (λ _, k))
  (at level 100, right associativity) : io_scope.
Open Scope io_scope.

Definition emit (e : event) : IO unit :=
  λ w, (Return tt, {| trace := trace w ++ [e]; tasks := tasks w |}).

Definition logger_info (msg : string) (args : list json) : IO unit :=
  emit (Info msg args).

Definition asyncio_sleep (seconds : Z) : IO unit := emit (Sleep seconds).

(** The new task goes to the back of the loop's queue; the caller goes on. *)
Definition asyncio_create_task (c : coroutine) : IO unit :=
  λ w, (Return tt, {| trace := trace w; tasks := tasks w ++ [c] |}).

(** [Response.is_success]: the status is 2xx.  [raise_for_status] raises
    for every other status. *)
Definition is_success (r : Response) : bool :=
  (200 <=? status_code r) && (status_code r <=? 299).

Definition raise_for_status (r : Response) : IO unit :=
  if is_success r then io_ret tt else raise (HTTPStatusError (status_code r)).

Definition Response_json (r : Response) : IO json :=
  match content r with
  | Json j => io_ret j
  | Text _ => raise ValueError
  end.

Definition Response_text `{Framework} (r : Response) : string :=
  match content r with
  | Json j => json_dumps j
  | Text s => s
  end.

(** [httpx.AsyncClient(app=app, base_url=...)]: requests go straight into
    the ASGI application [client_app], which sees the path and the decoded
    body.  An exception of the application or of the transport surfaces in
    [post]. *)
Record AsyncClient := {
  client_app : string → option json → IO Response;
  base_url : string;
}.

Definition post (client : AsyncClient) (url : string) (body : json)
    (timeout : Z) : IO Response :=
  emit (Post (base_url client +:+ url) body timeout) ;;
  client_app client url (Some body).

(** ** Pydantic models *)

Section Models.
Context `{Framework}.

(** Validation of one value against an annotation. *)
Definition as_dict (v : json) : option dict :=      (* Dict[str, Any] *)
  match v with
  | JDict d => Some d
  | JNull => None
  | _ => lax_dict v
  end.

Definition as_opt_dict (v : json) : option (option dict) :=  (* Optional[Dict[str, Any]] *)
  match v with
  | JNull => Some None
  | JDict d => Some (Some d)
  | _ => Some <$> lax_dict v
  end.

Definition as_str (v : json) : option string :=     (* str *)
  match v with
  | JStr s => Some s
  | JNull => None
  | _ => lax_str v
  end.

(** A field that the input leaves out takes its default; keys of the input
    that name no field are ignored. *)
Definition field {A} (input : dict) (name : string)
    (annotation : json → option A) (default : A) : option A :=
  match input !! name with
  | Some v => annotation v
  | None => Some default
  end.

(** What the module uses of [BaseModel]: the fields of an instance with
    their values, in declaration order, and validation of a mapping. *)
Class BaseModel (M : Type) := {
  model_fields : M → list (string * json);
  model_validate : dict → option M;
}.

(** [model.model_dump(exclude_none=...)]: the fields as a plain dict.  With
    [exclude_none] a field whose value is [None] is left out; values that
    are dicts are copied as they are. *)
Fixpoint dump_fields (exclude_none : bool) (fs : list (string * json)) : dict :=
  match fs with
  | [] => ∅
  | (name, v) :: rest =>
      if exclude_none && is_none v then dump_fields exclude_none rest
      else <[name := v]> (dump_fields exclude_none rest)
  end.

Definition model_dump {M} `{BaseModel M} (exclude_none : bool) (model : M) : dict :=
  dump_fields exclude_none (model_fields model).

(** Pydantic 1 calls the same method [dict]. *)
Definition model_dict {M} `{BaseModel M} (exclude_none : bool) (model : M) : dict :=
  dump_fields exclude_none (model_fields model).

Definition _model_to_dict {M} `{BaseModel M} (model : M) : dict :=
  if has_model_dump then model_dump true model
  else model_dict true model.

Definition of_option (o : option dict) : json :=
  match o with Some d => JDict d | None => JNull end.

(** What FastAPI makes of a handler's return value before it is written
    out.  With Pydantic 2 the value is dumped in JSON mode against the
    return annotation [Dict[str, Any]], which puts [None] in the place of
    a NaN or an infinity; with Pydantic 1 [jsonable_encoder] leaves the
    floats as they are. *)
Fixpoint serialize_response (v : json) : json :=
  match v with
  | JFloat f => if PrimFloat.is_finite f || negb has_model_dump then v else JNull
  | JList l => JList (serialize_response <$> l)
  | JDict d => JDict (serialize_response <$> d)
  | _ => v
  end.

(** The document a handler's return value is answered with, if it can be
    written out. *)
Definition rendered (v : json) : option json :=
  let document := serialize_response v in
  if json_compliant document then Some document else None.

End Models.

Module StartTestRequest.
Record t := { mock_payload : dict; webhook_payload : option dict }.

Definition default_mock_payload : dict :=
  {[ "document_id" := JStr "demo-document" ]}.

(** [StartTestRequest()] *)
Definition new : t :=
  {| mock_payload := default_mock_payload; webhook_payload := None |}.

Definition validate `{Framework} (input : dict) : option t :=
  match field input "mock_payload" as_dict default_mock_payload,
        field input "webhook_payload" as_opt_dict None with
  | Some mp, Some wp => Some {| mock_payload := mp; webhook_payload := wp |}
  | _, _ => None
  end.

Definition fields (m : t) : list (string * json) :=
  [ ("mock_payload", JDict (mock_payload m));
    ("webhook_payload", of_option (webhook_payload m)) ].
End StartTestRequest.

Module MockGsealRequest.
Record t := { mock_payload : dict; webhook_payload : option dict }.

Definition validate `{Framework} (input : dict) : option t :=
  match field input "mock_payload" as_dict ∅,
        field input "webhook_payload" as_opt_dict None with
  | Some mp, Some wp => Some {| mock_payload := mp; webhook_payload := wp |}
  | _, _ => None
  end.

Definition fields (m : t) : list (string * json) :=
  [ ("mock_payload", JDict (mock_payload m));
    ("webhook_payload", of_option (webhook_payload m)) ].
End MockGsealRequest.

Module WebhookNotification.
Record t := { event : string; data : dict }.

Definition validate `{Framework} (input : dict) : option t :=
  match field input "event" as_str "mock.document.completed",
        field input "data" as_dict ∅ with
  | Some e, Some d => Some {| event := e; data := d |}
  | _, _ => None
  end.

Definition fields (m : t) : list (string * json) :=
  [ ("event", JStr (event m)); ("data", JDict (data m)) ].
End WebhookNotification.

#[export] Instance StartTestRequest_model `{Framework} : BaseModel StartTestRequest.t :=
  {| model_fields := StartTestRequest.fields;
     model_validate := StartTestRequest.validate |}.

#[export] Instance MockGsealRequest_model `{Framework} : BaseModel MockGsealRequest.t :=
  {| model_fields := MockGsealRequest.fields;
     model_validate := MockGsealRequest.validate |}.

#[export] Instance WebhookNotification_model `{Framework} : BaseModel WebhookNotification.t :=
  {| model_fields := WebhookNotification.fields;
     model_validate := WebhookNotification.validate |}.

(** ** The module's functions *)

Definition INTERNAL_BASE_URL : string := "http://testserver".

Section Handlers.
Context `{Framework}.

(** [httpx.AsyncClient(app=app, base_url=INTERNAL_BASE_URL)] *)
Variable client : AsyncClient.

Definition dispatch_webhook (webhook_payload : dict) : IO unit :=
  logger_info "Waiting 1 second before dispatching webhook..." [] ;;
  asyncio_sleep 1 ;;
  response <- post client "/app-webhook-listener" (JDict webhook_payload) 10 ;;
  response_payload <-
    try_except_ValueError
      (Response_json response)
      (io_ret (JStr (Response_text response))) ;;
  logger_info "Webhook POST completed with status %s and payload %s"
    [JInt (status_code response); response_payload].

Definition start_test (payload : option StartTestRequest.t) : IO dict :=
  let payload := default StartTestRequest.new payload in
  let payload_dict := _model_to_dict payload in
  logger_info "Received /start-test request: %s" [JDict payload_dict] ;;
  response <- post client "/mock-gseal-api" (JDict payload_dict) 10 ;;
  raise_for_status response ;;
  mock_api_response <- Response_json response ;;
  io_ret {[ "status" := JStr "mock_request_dispatched";
            "mock_api_response" := mock_api_response ]}.

Definition mock_gseal_api (request : MockGsealRequest.t) : IO dict :=
  let request_dict := _model_to_dict request in
  logger_info "Mock GSeal API received payload: %s" [JDict request_dict] ;;
  let webhook_payload : dict :=
    match MockGsealRequest.webhook_payload request with
    | Some override => override
    | None =>
        {[ "event" := JStr "mock.document.completed";
           "data" := JDict
             {[ "status" := JStr "completed";
                "original_payload" := JDict (MockGsealRequest.mock_payload request) ]} ]}
    end in
  asyncio_create_task (Dispatch_webhook webhook_payload) ;;
  io_ret {[ "status" := JStr "webhook_scheduled";
            "webhook_payload" := JDict webhook_payload ]}.

Definition app_webhook_listener (notification : WebhookNotification.t) : IO dict :=
  let notification_dict := _model_to_dict notification in
  logger_info "Webhook listener received payload: %s" [JDict notification_dict] ;;
  io_ret {[ "status" := JStr "received";
            "payload" := JDict notification_dict ]}.

(** ** FastAPI: body parameters, responses, routes *)

Definition JSONResponse (status : Z) (j : json) : Response :=
  {| status_code := status; content := Json j |}.

(** [JSONResponse(content, status_code).render]: the body is written with
    [allow_nan=False] and encoded as UTF-8, and either step can raise
    [ValueError]. *)
Definition JSONResponse_render (status : Z) (document : json) : IO Response :=
  if json_compliant document then io_ret (JSONResponse status document)
  else raise ValueError.

(** The answer to a body that does not validate, written out by the
    exception handler as it is. *)
Definition validation_error (path : string) (body : option json) : IO Response :=
  JSONResponse_render 422 (JDict {[ "detail" := error_detail path body ]}).

Definition not_found : Response :=
  JSONResponse 404 (JDict {[ "detail" := JStr "Not Found" ]}).

(** [request: Model]: the body must be there and validate. *)
Definition required_body {M} `{BaseModel M} (body : option json) : option M :=
  match body with
  | None => None
  | Some v => match as_dict v with Some d => model_validate d | None => None end
  end.

(** [payload: Optional[Model] = None]: no body, or [null], gives [None]. *)
Definition optional_body {M} `{BaseModel M} (body : option json) : option (option M) :=
  match body with
  | None | Some JNull => Some None
  | Some v => match as_dict v with Some d => Some <$> model_validate d | None => None end
  end.

(** A body that does not validate is answered 422 and the handler is not
    called; the handler's dict, serialised, is written out as the body of
    a 200.  An exception of the handler or of the writing leaves the
    endpoint. *)
Definition endpoint {A} (path : string) (arg : option A) (body : option json)
    (handler : A → IO dict) : IO Response :=
  match arg with
  | None => validation_error path body
  | Some a =>
      result <- handler a ;;
      JSONResponse_render 200 (serialize_response (JDict result))
  end.

(** [@app.post(...)] *)
Definition routes (path : string) (body : option json) : IO Response :=
  if String.eqb path "/start-test" then
    endpoint path (optional_body body) body start_test
  else if String.eqb path "/mock-gseal-api" then
    endpoint path (required_body body) body mock_gseal_api
  else if String.eqb path "/app-webhook-listener" then
    endpoint path (required_body body) body app_webhook_listener
  else io_ret not_found.

End Handlers.

(** ** The application and its event loop

    The client of every handler dispatches into the application itself.
    Only [start_test] and [dispatch_webhook] post, and only to the two
    endpoints whose handlers do not post, so two levels close the loop:
    [app] is the application as a caller from outside reaches it, [inner]
    is the client its handlers and tasks hold. *)

Definition no_client : AsyncClient :=
  {| client_app := λ _ _, raise (TransportError "nested request");
     base_url := INTERNAL_BASE_URL |}.

Definition inner `{Framework} : AsyncClient :=
  {| client_app := routes no_client; base_url := INTERNAL_BASE_URL |}.

Definition app `{Framework} : string → option json → IO Response :=
  routes inner.

(** The server in front of an application: an exception that leaves a
    handler is answered 500. *)
Definition server (application : string → option json → IO Response)
    (path : string) (body : option json) : IO Response :=
  λ w, match application path body w with
       | (Raise _, w') =>
           (Return {| status_code := 500; content := Text "Internal Server Error" |}, w')
       | r => r
       end.

(** A request from outside. *)
Definition serve `{Framework} : string → option json → IO Response :=
  server app.

Definition run_coroutine `{Framework} (c : coroutine) : IO unit :=
  match c with
  | Dispatch_webhook webhook_payload => dispatch_webhook inner webhook_payload
  end.

(** One turn of the loop: the oldest task runs; if it raises, nobody awaits
    it and the loop only reports it.  A task runs to its end within its
    turn: how tasks interleave at their [await]s is not part of the
    model. *)
Definition loop_step `{Framework} (w : world) : world :=
  match tasks w with
  | [] => w
  | c :: rest =>
      match run_coroutine c {| trace := trace w; tasks := rest |} with
      | (Return _, w') => w'
      | (Raise e, w') =>
          {| trace := trace w' ++ [Never_retrieved e]; tasks := tasks w' |}
      end
  end.

Definition run_until_idle `{Framework} (w : world) : world :=
  Nat.iter (length (tasks w)) loop_step w.

(** The request a task will send once it runs. *)
Definition request_of (c : coroutine) : string * json :=
  match c with
  | Dispatch_webhook webhook_payload =>
      (INTERNAL_BASE_URL +:+ "/app-webhook-listener", JDict webhook_payload)
  end.

(** The requests sent through the in-process client, oldest first. *)
Fixpoint posts (t : list event) : list (string * json) :=
  match t with
  | [] => []
  | Post url body _ :: rest => (url, body) :: posts rest
  | _ :: rest => posts rest
  end.

(** ** An installation to run the model on *)

Definition quote : ascii := ascii_of_nat 34.

Definition quoted (s : string) : string :=
  String quote (s +:+ String quote EmptyString).

(** A compact rendering of a document, without escapes.  The text of a
    JSON body is read on no path of the module: its only reader is the
    [except] branch of [dispatch_webhook], taken when the body is not
    JSON. *)
Fixpoint render (j : json) : string :=
  match j with
  | JNull => "null"
  | JBool b => if b then "true" else "false"
  | JInt n => pretty n
  | JFloat f =>
      match Prim2SF f with
      | S754_zero s => if s then "-0.0" else "0.0"
      | S754_infinity s => if s then "-Infinity" else "Infinity"
      | S754_nan => "NaN"
      | S754_finite s m e =>
          (if s then "-" else "") +:+ pretty (Z.pos m) +:+ "p" +:+ pretty e
      end
  | JStr s => quoted s
  | JList l => "[" +:+ foldr (λ x acc, render x +:+ "," +:+ acc) "" l +:+ "]"
  | JDict d =>
      "{" +:+ map_fold (λ k v acc, quoted k +:+ ":" +:+ render v +:+ "," +:+ acc) "" d +:+ "}"
  end.

(** The error records of Pydantic 2, as FastAPI lists them under
    [detail]: one for a body that is missing or is no mapping, else one
    for each field whose value has another type than the annotated one. *)
Definition error_record (type : string) (loc : list string) (msg : string)
    (input : json) : json :=
  JDict {[ "type" := JStr type; "loc" := JList (JStr <$> loc);
           "msg" := JStr msg; "input" := input ]}.

Definition dict_type_error (name : string) (v : json) : list json :=
  match v with
  | JDict _ => []
  | _ => [error_record "dict_type" ["body"; name]
            "Input should be a valid dictionary" v]
  end.

Definition optional_dict_type_error (name : string) (v : json) : list json :=
  match v with
  | JNull => []
  | _ => dict_type_error name v
  end.

Definition string_type_error (name : string) (v : json) : list json :=
  match v with
  | JStr _ => []
  | _ => [error_record "string_type" ["body"; name]
            "Input should be a valid string" v]
  end.

Definition field_errors (input : dict) (name : string)
    (check : string → json → list json) : list json :=
  match input !! name with
  | Some v => check name v
  | None => []
  end.

Definition pydantic2_detail (path : string) (body : option json) : json :=
  JList
    match body with
    | None | Some JNull =>
        [error_record "missing" ["body"] "Field required" JNull]
    | Some (JDict input) =>
        if String.eqb path "/app-webhook-listener" then
          field_errors input "event" string_type_error
          ++ field_errors input "data" dict_type_error
        else
          field_errors input "mock_payload" dict_type_error
          ++ field_errors input "webhook_payload" optional_dict_type_error
    | Some v =>
        [error_record "model_attributes_type" ["body"]
           "Input should be a valid dictionary or object to extract fields from" v]
    end.

(** Pydantic 2, which refuses a value of another type than the annotated
    one. *)
Definition pydantic2 : Framework :=
  {| has_model_dump := true;
     lax_dict := λ _, None;
     lax_str := λ _, None;
     error_detail := pydantic2_detail;
     json_dumps := render |}.

(** A process that has just started: nothing logged, nothing pending. *)
Definition idle : world := {| trace := []; tasks := [] |}.

(** A client whose application is down, to run [start_test] and
    [dispatch_webhook] against an answer that is neither 2xx nor JSON. *)
Definition unavailable : AsyncClient :=
  {| client_app := λ _ _,
       io_ret {| status_code := 503; content := Text "Service Unavailable" |};
     base_url := INTERNAL_BASE_URL |}.

(** ** The logger, set up when the module is loaded *)

Inductive stream_t := Stdout | Stderr.

Record Handler := { stream : stream_t; formatter : option string }.

(** The logger that [logging.getLogger(name)] returns: the same one on
    every call, with the handlers and the level it was left with. *)
Record Logger := { handlers : list Handler; level : Z }.

Definition INFO : Z := 20.

(** The statements at the head of the module, on the logger as they find
    it: a handler to standard output is added only when the logger has
    none, and the level is set to [INFO] in every case. *)
Definition setup_logger (logger : Logger) : Logger :=
  let logger :=
    match handlers logger with
    | [] =>
        let handler :=
          {| stream := Stdout;
             formatter := Some "%(asctime)s | %(levelname)s | %(name)s | %(message)s" |} in
        {| handlers := handlers logger ++ [handler]; level := level logger |}
    | _ :: _ => logger
    end in
  {| handlers := handlers logger; level := INFO |}.

(** A client whose request never gets an answer. *)
Definition timed_out : AsyncClient :=
  {| client_app := λ _ _, raise (TransportError "timed out");
     base_url := INTERNAL_BASE_URL |}.

(** A client whose application answers 200 with a body that is not JSON. *)
Definition garbled : AsyncClient :=
  {| client_app := λ _ _, io_ret {| status_code := 200; content := Text "OK" |};
     base_url := INTERNAL_BASE_URL |}.

(** * Properties *)

(** ** Running the monad *)

Lemma io_bind_return {A B} (m : IO A) (k : A → IO B) w a w' :
  m w = (Return a, w') → io_bind m k w = k a w'.
Proof. intros E. unfold io_bind. by rewrite E. Qed.

Lemma io_bind_raise {A B} (m : IO A) (k : A → IO B) w e w' :
  m w = (Raise e, w') → io_bind m k w = (Raise e, w').
Proof. intros E. unfold io_bind. by rewrite E. Qed.

Lemma posts_app t1 t2 : posts (t1 ++ t2) = posts t1 ++ posts t2.
Proof.
  induction t1 as [|e t1 IH]; [done|].
  destruct e; simpl; by rewrite ?IH.
Qed.

(** Runs the straight-line part of a computation and puts the trace in
    the form [trace w ++ events]. *)
Ltac io_run :=
  unfold io_bind, io_ret, raise, logger_info, asyncio_sleep, emit,
    asyncio_create_task;
  simpl; rewrite <- ?app_assoc; simpl.

(** ** Documents *)

(** Induction on a document goes through its size. *)

Lemma json_size_elem x l : x ∈ l → (json_size x < json_size (JList l))%nat.
Proof.
  simpl. induction 1 as [x l|x y l _ IH]; simpl; lia.
Qed.

Lemma json_size_lookup (d : dict) k x :
  d !! k = Some x → (json_size x < json_size (JDict d))%nat.
Proof.
  intros Hk. rewrite <- (insert_delete_id d k x Hk). simpl.
  rewrite map_fold_insert_L; [lia| |apply lookup_delete_eq].
  intros. lia.
Qed.

Lemma json_induction (P : json → Prop) :
  P JNull → (∀ b, P (JBool b)) → (∀ n, P (JInt n)) → (∀ f, P (JFloat f)) →
  (∀ s, P (JStr s)) →
  (∀ l, Forall P l → P (JList l)) →
  (∀ d : dict, map_Forall (λ _, P) d → P (JDict d)) →
  ∀ v, P v.
Proof.
  intros Hnull Hbool Hint Hfloat Hstr Hlist Hdict.
  assert (∀ n v, (json_size v < n)%nat → P v) as Hsize.
  { induction n as [|n IH]; intros v Hv; [lia|].
    destruct v as [| | | | |l|d]; auto.
    - apply Hlist, Forall_forall. intros x Hx. apply IH.
      pose proof (json_size_elem x l Hx). lia.
    - apply Hdict. intros k x Hk. apply IH.
      pose proof (json_size_lookup d k x Hk). lia. }
  intros v. apply (Hsize (S (json_size v))). lia.
Qed.

Lemma json_compliant_insert (d : dict) k x :
  d !! k = None →
  json_compliant (JDict (<[k:=x]> d))
  = encodable k && json_compliant x && json_compliant (JDict d).
Proof.
  intros Hk. simpl. rewrite map_fold_insert_L; [done| |done].
  intros j1 j2 z1 z2 y _ _ _.
  by destruct (encodable j1), (json_compliant z1), (encodable j2), (json_compliant z2).
Qed.

Lemma json_compliant_dict (d : dict) :
  json_compliant (JDict d) = true
  ↔ map_Forall (λ k x, encodable k = true ∧ json_compliant x = true) d.
Proof.
  induction d as [|k x d Hk IH] using map_ind.
  - split; [intros _; apply map_Forall_empty|done].
  - rewrite json_compliant_insert, map_Forall_insert, !andb_true_iff by done.
    rewrite IH. tauto.
Qed.

(** A document that can be written out is serialised as itself, on either
    Pydantic. *)
Lemma serialize_response_compliant `{Framework} v :
  json_compliant v = true → serialize_response v = v.
Proof.
  induction v as [| | |f| |l IH|d IH] using json_induction; simpl; try done.
  - by intros ->.
  - intros Hl. f_equal. rewrite <- (list_fmap_id l) at 2.
    apply Forall_fmap_ext_1. rewrite forallb_forall in Hl.
    rewrite Forall_forall in IH |- *. intros x Hx.
    apply IH; [done|]. apply Hl. by apply list_elem_of_In.
  - intros Hd. f_equal. apply json_compliant_dict in Hd.
    rewrite <- (map_fmap_id d) at 2. apply map_fmap_ext.
    intros k x Hk. apply (IH k x Hk). by apply (Hd k x Hk).
Qed.

Section Properties.
Context `{Framework}.

Lemma rendered_compliant v : json_compliant v = true → rendered v = Some v.
Proof.
  intros Hv. unfold rendered. by rewrite (serialize_response_compliant v Hv), Hv.
Qed.

Lemma rendered_Some v document :
  rendered v = Some document →
  document = serialize_response v ∧ json_compliant document = true.
Proof.
  unfold rendered. destruct (json_compliant (serialize_response v)) eqn:E; [|done].
  by intros [= <-].
Qed.

(** A mapping of a tag and one more entry, as every answer of the module
    is: the tag is kept, the entry is rendered. *)
Lemma rendered_tagged (k1 k2 tag : string) v :
  k1 ≠ k2 → encodable k1 = true → encodable k2 = true →
  rendered (JDict {[ k1 := JStr tag; k2 := v ]})
  = if encodable tag
    then (λ document, JDict {[ k1 := JStr tag; k2 := document ]}) <$> rendered v
    else None.
Proof.
  intros Hne H1 H2. unfold rendered.
  assert (serialize_response (JDict {[ k1 := JStr tag; k2 := v ]})
          = JDict {[ k1 := JStr tag; k2 := serialize_response v ]}) as ->.
  { simpl. by rewrite fmap_insert, map_fmap_singleton. }
  assert (json_compliant (JDict {[ k1 := JStr tag; k2 := serialize_response v ]})
          = encodable tag && json_compliant (serialize_response v)) as ->.
  { rewrite json_compliant_insert by by apply lookup_singleton_ne.
    rewrite <- insert_empty, json_compliant_insert by apply lookup_empty.
    change (json_compliant (JStr tag)) with (encodable tag).
    change (json_compliant (JDict ∅)) with true.
    rewrite H1, H2. simpl. by rewrite !andb_true_r. }
  by destruct (encodable tag), (json_compliant (serialize_response v)).
Qed.


(** ** Serialisation *)

Lemma _model_to_dict_eq {M} `{BaseModel M} (model : M) :
  _model_to_dict model = dump_fields true (model_fields model).
Proof. unfold _model_to_dict, model_dump, model_dict. by destruct has_model_dump. Qed.

(** With [exclude_none] no field of the result holds [None]. *)
Lemma dump_fields_no_none fs name v :
  dump_fields true fs !! name = Some v → v ≠ JNull.
Proof.
  induction fs as [|[k x] fs IH]; simpl.
  - by rewrite lookup_empty.
  - destruct (is_none x) eqn:Ex; [done|].
    destruct (decide (k = name)) as [->|Hne].
    + rewrite lookup_insert_eq. intros [= <-]. by intros ->.
    + by rewrite lookup_insert_ne.
Qed.

Lemma StartTestRequest_to_dict mp wp :
  _model_to_dict {| StartTestRequest.mock_payload := mp;
                    StartTestRequest.webhook_payload := wp |}
  = match wp with
    | Some d => {[ "mock_payload" := JDict mp; "webhook_payload" := JDict d ]}
    | None => {[ "mock_payload" := JDict mp ]}
    end.
Proof. rewrite _model_to_dict_eq. by destruct wp. Qed.

Lemma MockGsealRequest_to_dict mp wp :
  _model_to_dict {| MockGsealRequest.mock_payload := mp;
                    MockGsealRequest.webhook_payload := wp |}
  = match wp with
    | Some d => {[ "mock_payload" := JDict mp; "webhook_payload" := JDict d ]}
    | None => {[ "mock_payload" := JDict mp ]}
    end.
Proof. rewrite _model_to_dict_eq. by destruct wp. Qed.

Lemma WebhookNotification_to_dict e d :
  _model_to_dict {| WebhookNotification.event := e; WebhookNotification.data := d |}
  = {[ "event" := JStr e; "data" := JDict d ]}.
Proof. by rewrite _model_to_dict_eq. Qed.

(** ** The handlers, run *)

Lemma mock_gseal_api_run request w :
  mock_gseal_api request w =
  let webhook_payload : dict :=
    match MockGsealRequest.webhook_payload request with
    | Some override => override
    | None =>
        {[ "event" := JStr "mock.document.completed";
           "data" := JDict
             {[ "status" := JStr "completed";
                "original_payload" := JDict (MockGsealRequest.mock_payload request) ]} ]}
    end in
  (Return {[ "status" := JStr "webhook_scheduled";
             "webhook_payload" := JDict webhook_payload ]},
   {| trace := trace w ++
        [Info "Mock GSeal API received payload: %s" [JDict (_model_to_dict request)]];
      tasks := tasks w ++ [Dispatch_webhook webhook_payload] |}).
Proof. reflexivity. Qed.

Lemma app_webhook_listener_run notification w :
  app_webhook_listener notification w =
  (Return {[ "status" := JStr "received";
             "payload" := JDict (_model_to_dict notification) ]},
   {| trace := trace w ++
        [Info "Webhook listener received payload: %s"
           [JDict (_model_to_dict notification)]];
      tasks := tasks w |}).
Proof. reflexivity. Qed.

(** What a handler's dict becomes on the wire. *)
Lemma endpoint_accepted {A} path (a : A) body (handler : A → IO dict) w result w' :
  handler a w = (Return result, w') →
  endpoint path (Some a) body handler w =
  match rendered (JDict result) with
  | Some document => (Return (JSONResponse 200 document), w')
  | None => (Raise ValueError, w')
  end.
Proof.
  intros E. unfold endpoint. rewrite (io_bind_return _ _ _ _ _ E).
  unfold rendered, JSONResponse_render.
  by destruct (json_compliant (serialize_response (JDict result))).
Qed.

Lemma endpoint_raises {A} path (a : A) body (handler : A → IO dict) w e w' :
  handler a w = (Raise e, w') →
  endpoint path (Some a) body handler w = (Raise e, w').
Proof. intros E. unfold endpoint. by rewrite (io_bind_raise _ _ _ _ _ E). Qed.

Lemma routes_mock_gseal_api client body :
  routes client "/mock-gseal-api" body
  = endpoint "/mock-gseal-api" (required_body body) body mock_gseal_api.
Proof. reflexivity. Qed.

Lemma routes_app_webhook_listener client body :
  routes client "/app-webhook-listener" body
  = endpoint "/app-webhook-listener" (required_body body) body app_webhook_listener.
Proof. reflexivity. Qed.

Lemma routes_start_test client body :
  routes client "/start-test" body
  = endpoint "/start-test" (optional_body body) body (start_test client).
Proof. reflexivity. Qed.

(** Only [/start-test] uses the client it is given: on every other path the
    application answers the same whatever client its handlers hold. *)
Lemma routes_client_irrelevant client client' path body :
  path ≠ "/start-test" → routes client path body = routes client' path body.
Proof.
  intros Hpath. unfold routes.
  destruct (String.eqb path "/start-test") eqn:E; [|done].
  by apply String.eqb_eq in E.
Qed.

Lemma server_return application path body w r w' :
  application path body w = (Return r, w') →
  server application path body w = (Return r, w').
Proof. intros E. unfold server. by rewrite E. Qed.

Lemma server_raise application path body w e w' :
  application path body w = (Raise e, w') →
  server application path body w
  = (Return {| status_code := 500; content := Text "Internal Server Error" |}, w').
Proof. intros E. unfold server. by rewrite E. Qed.

Lemma post_inner url body timeout w :
  post inner url body timeout w
  = routes no_client url (Some body)
      {| trace := trace w ++ [Post (INTERNAL_BASE_URL +:+ url) body timeout];
         tasks := tasks w |}.
Proof. reflexivity. Qed.

(** ** The two endpoints that do not post *)

(** [/mock-gseal-api] on a request it accepts: the handler runs, and its
    answer is written out if the scheduled payload can be. *)
Lemma mock_gseal_api_route client body (request : MockGsealRequest.t) w :
  required_body body = Some request →
  let webhook_payload : dict :=
    match MockGsealRequest.webhook_payload request with
    | Some override => override
    | None =>
        {[ "event" := JStr "mock.document.completed";
           "data" := JDict
             {[ "status" := JStr "completed";
                "original_payload" := JDict (MockGsealRequest.mock_payload request) ]} ]}
    end in
  let w' :=
    {| trace := trace w ++
         [Info "Mock GSeal API received payload: %s" [JDict (_model_to_dict request)]];
       tasks := tasks w ++ [Dispatch_webhook webhook_payload] |} in
  routes client "/mock-gseal-api" body w =
  match rendered (JDict webhook_payload) with
  | Some document =>
      (Return (JSONResponse 200 (JDict
         {[ "status" := JStr "webhook_scheduled";
            "webhook_payload" := document ]})), w')
  | None => (Raise ValueError, w')
  end.
Proof.
  intros E webhook_payload w'.
  rewrite routes_mock_gseal_api, E.
  rewrite (endpoint_accepted _ _ _ _ _ _ _ (mock_gseal_api_run request w)).
  fold webhook_payload. fold w'.
  rewrite rendered_tagged by done. simpl.
  by destruct (rendered (JDict webhook_payload)).
Qed.

(** [/app-webhook-listener] on a notification it accepts. *)
Lemma app_webhook_listener_route client body (notification : WebhookNotification.t) w :
  required_body body = Some notification →
  let received : dict :=
    {[ "event" := JStr (WebhookNotification.event notification);
       "data" := JDict (WebhookNotification.data notification) ]} in
  let w' :=
    {| trace := trace w ++
         [Info "Webhook listener received payload: %s" [JDict received]];
       tasks := tasks w |} in
  routes client "/app-webhook-listener" body w =
  match rendered (JDict received) with
  | Some document =>
      (Return (JSONResponse 200 (JDict
         {[ "status" := JStr "received"; "payload" := document ]})), w')
  | None => (Raise ValueError, w')
  end.
Proof.
  intros E received w'.
  rewrite routes_app_webhook_listener, E.
  rewrite (endpoint_accepted _ _ _ _ _ _ _ (app_webhook_listener_run notification w)).
  unfold w', received. clear. destruct notification as [e d].
  rewrite WebhookNotification_to_dict. simpl.
  rewrite rendered_tagged by done. simpl.
  by destruct (rendered (JDict {[ "event" := JStr e; "data" := JDict d ]})).
Qed.

(** The payload of a notification is written out when its event and its
    data can be. *)
Lemma rendered_notification (e : string) (d : dict) :
  rendered (JDict {[ "event" := JStr e; "data" := JDict d ]})
  = if encodable e
    then (λ document, JDict {[ "event" := JStr e; "data" := document ]})
           <$> rendered (JDict d)
    else None.
Proof. by rewrite rendered_tagged. Qed.


(** ** A request from outside *)

Lemma serve_mock_gseal_api body (request : MockGsealRequest.t) w :
  required_body body = Some request →
  let webhook_payload : dict :=
    match MockGsealRequest.webhook_payload request with
    | Some override => override
    | None =>
        {[ "event" := JStr "mock.document.completed";
           "data" := JDict
             {[ "status" := JStr "completed";
                "original_payload" := JDict (MockGsealRequest.mock_payload request) ]} ]}
    end in
  serve "/mock-gseal-api" body w =
  (Return
     match rendered (JDict webhook_payload) with
     | Some document =>
         JSONResponse 200 (JDict
           {[ "status" := JStr "webhook_scheduled"; "webhook_payload" := document ]})
     | None => {| status_code := 500; content := Text "Internal Server Error" |}
     end,
   {| trace := trace w ++
        [Info "Mock GSeal API received payload: %s" [JDict (_model_to_dict request)]];
      tasks := tasks w ++ [Dispatch_webhook webhook_payload] |}).
Proof.
  intros E webhook_payload. unfold serve, server, app.
  rewrite (mock_gseal_api_route _ _ _ _ E). fold webhook_payload.
  by destruct (rendered (JDict webhook_payload)).
Qed.

Lemma serve_app_webhook_listener body (notification : WebhookNotification.t) w :
  required_body body = Some notification →
  let received : dict :=
    {[ "event" := JStr (WebhookNotification.event notification);
       "data" := JDict (WebhookNotification.data notification) ]} in
  serve "/app-webhook-listener" body w =
  (Return
     match rendered (JDict received) with
     | Some document =>
         JSONResponse 200 (JDict
           {[ "status" := JStr "received"; "payload" := document ]})
     | None => {| status_code := 500; content := Text "Internal Server Error" |}
     end,
   {| trace := trace w ++
        [Info "Webhook listener received payload: %s" [JDict received]];
      tasks := tasks w |}).
Proof.
  intros E received. unfold serve, server, app.
  rewrite (app_webhook_listener_route _ _ _ _ E). fold received.
  by destruct (rendered (JDict received)).
Qed.

(** ** The closed loop: [start_test] against the application itself *)

(** The mapping [start_test] forwards validates as the request it was
    made from. *)
Lemma forwarded_validates (payload : StartTestRequest.t) :
  required_body (Some (JDict (_model_to_dict payload)))
  = Some {| MockGsealRequest.mock_payload := StartTestRequest.mock_payload payload;
            MockGsealRequest.webhook_payload := StartTestRequest.webhook_payload payload |}.
Proof.
  destruct payload as [mp wp]. rewrite StartTestRequest_to_dict.
  by destruct wp.
Qed.

Lemma forwarded_dict (payload : StartTestRequest.t) :
  _model_to_dict
    {| MockGsealRequest.mock_payload := StartTestRequest.mock_payload payload;
       MockGsealRequest.webhook_payload := StartTestRequest.webhook_payload payload |}
  = _model_to_dict payload.
Proof. by rewrite !_model_to_dict_eq. Qed.

Lemma start_test_run payload w :
  let p := default StartTestRequest.new payload in
  let forwarded := _model_to_dict p in
  let webhook_payload : dict :=
    match StartTestRequest.webhook_payload p with
    | Some override => override
    | None =>
        {[ "event" := JStr "mock.document.completed";
           "data" := JDict {[ "status" := JStr "completed";
                              "original_payload" := JDict (StartTestRequest.mock_payload p) ]} ]}
    end in
  let w' :=
    {| trace := trace w ++
         [ Info "Received /start-test request: %s" [JDict forwarded];
           Post (INTERNAL_BASE_URL +:+ "/mock-gseal-api") (JDict forwarded) 10;
           Info "Mock GSeal API received payload: %s" [JDict forwarded] ];
       tasks := tasks w ++ [Dispatch_webhook webhook_payload] |} in
  start_test inner payload w =
  match rendered (JDict webhook_payload) with
  | Some document =>
      (Return {[ "status" := JStr "mock_request_dispatched";
                 "mock_api_response" := JDict
                   {[ "status" := JStr "webhook_scheduled";
                      "webhook_payload" := document ]} ]}, w')
  | None => (Raise ValueError, w')
  end.
Proof.
  intros p forwarded webhook_payload w'.
  unfold start_test. fold p. fold forwarded.
  unfold logger_info.
  erewrite io_bind_return; [|reflexivity].
  assert (post inner "/mock-gseal-api" (JDict forwarded) 10
            {| trace := trace w ++
                 [Info "Received /start-test request: %s" [JDict forwarded]];
               tasks := tasks w |}
          = match rendered (JDict webhook_payload) with
            | Some document =>
                (Return (JSONResponse 200 (JDict
                   {[ "status" := JStr "webhook_scheduled";
                      "webhook_payload" := document ]})), w')
            | None => (Raise ValueError, w')
            end) as Hpost.
  { rewrite post_inner.
    rewrite (mock_gseal_api_route _ _ _ _ (forwarded_validates p)).
    rewrite forwarded_dict. simpl. fold forwarded. fold webhook_payload.
    unfold w'. by rewrite <- !app_assoc. }
  destruct (rendered (JDict webhook_payload)) as [document|].
  - erewrite io_bind_return; [|exact Hpost].
    unfold raise_for_status, Response_json. by io_run.
  - by erewrite io_bind_raise; [|exact Hpost].
Qed.

Lemma serve_start_test body payload w :
  optional_body body = Some payload →
  serve "/start-test" body w = 
  match start_test inner payload w with
  | (Return result, w') =>
      match rendered (JDict result) with
      | Some document => (Return (JSONResponse 200 document), w')
      | None =>
          (Return {| status_code := 500; content := Text "Internal Server Error" |}, w')
      end
  | (Raise e, w') =>
      (Return {| status_code := 500; content := Text "Internal Server Error" |}, w')
  end.
Proof.
  intros E. unfold serve, server, app.
  rewrite routes_start_test, E.
  destruct (start_test inner payload w) as [[result|e] w'] eqn:Es.
  - rewrite (endpoint_accepted _ _ _ _ _ _ _ Es).
    by destruct (rendered (JDict result)).
  - by rewrite (endpoint_raises _ _ _ _ _ _ _ Es).
Qed.

(** A call of [/start-test]: its answer, and the world it leaves, which
    is the same whether or not the answer of [/mock-gseal-api] could be
    written out. *)
Lemma serve_start_test_run body (payload : option StartTestRequest.t) w :
  optional_body body = Some payload →
  let p := default StartTestRequest.new payload in
  let forwarded := _model_to_dict p in
  let webhook_payload : dict :=
    match StartTestRequest.webhook_payload p with
    | Some override => override
    | None =>
        {[ "event" := JStr "mock.document.completed";
           "data" := JDict {[ "status" := JStr "completed";
                              "original_payload" := JDict (StartTestRequest.mock_payload p) ]} ]}
    end in
  serve "/start-test" body w =
  (Return
     match rendered (JDict webhook_payload) with
     | Some document =>
         JSONResponse 200 (JDict
           {[ "status" := JStr "mock_request_dispatched";
              "mock_api_response" := JDict
                {[ "status" := JStr "webhook_scheduled";
                   "webhook_payload" := document ]} ]})
     | None => {| status_code := 500; content := Text "Internal Server Error" |}
     end,
   {| trace := trace w ++
        [ Info "Received /start-test request: %s" [JDict forwarded];
          Post (INTERNAL_BASE_URL +:+ "/mock-gseal-api") (JDict forwarded) 10;
          Info "Mock GSeal API received payload: %s" [JDict forwarded] ];
      tasks := tasks w ++ [Dispatch_webhook webhook_payload] |}).
Proof.
  intros E p forwarded webhook_payload.
  rewrite (serve_start_test _ _ _ E), start_test_run.
  fold p. fold forwarded. fold webhook_payload.
  destruct (rendered (JDict webhook_payload)) as [document|] eqn:Ed; [|done].
  apply rendered_Some in Ed as [_ Hdocument].
  rewrite rendered_tagged by done. simpl.
  rewrite rendered_tagged by done. simpl.
  by rewrite (rendered_compliant _ Hdocument).
Qed.

(** ** The dispatcher against the application *)

(** The whole of a dispatch: the wait, the one request, and then what the
    listener makes of the payload.  If it accepts the payload and its
    answer can be written out, the task logs status 200 and ends; if it
    refuses the payload, the task logs status 422 and ends; if the answer
    cannot be written out, the exception comes out of the request and
    ends the task. *)
Lemma dispatch_webhook_run (webhook_payload : dict) w :
  let sent :=
    trace w ++
    [ Info "Waiting 1 second before dispatching webhook..." [];
      Sleep 1;
      Post (INTERNAL_BASE_URL +:+ "/app-webhook-listener") (JDict webhook_payload) 10 ] in
  dispatch_webhook inner webhook_payload w =
  match required_body (Some (JDict webhook_payload)) with
  | Some notification =>
      let received : dict :=
        {[ "event" := JStr (WebhookNotification.event notification);
           "data" := JDict (WebhookNotification.data notification) ]} in
      match rendered (JDict received) with
      | Some document =>
          (Return tt,
           {| trace := sent ++
                [ Info "Webhook listener received payload: %s" [JDict received];
                  Info "Webhook POST completed with status %s and payload %s"
                    [ JInt 200;
                      JDict {[ "status" := JStr "received";
                               "payload" := document ]} ] ];
              tasks := tasks w |})
      | None =>
          (Raise ValueError,
           {| trace := sent ++
                [Info "Webhook listener received payload: %s" [JDict received]];
              tasks := tasks w |})
      end
  | None =>
      let errors : json :=
        JDict {[ "detail" :=
                   error_detail "/app-webhook-listener" (Some (JDict webhook_payload)) ]} in
      if json_compliant errors then
        (Return tt,
         {| trace := sent ++
              [ Info "Webhook POST completed with status %s and payload %s"
                  [JInt 422; errors] ];
            tasks := tasks w |})
      else (Raise ValueError, {| trace := sent; tasks := tasks w |})
  end.
Proof.
  intros sent. unfold sent.
  unfold dispatch_webhook, logger_info, asyncio_sleep.
  do 2 (erewrite io_bind_return; [|reflexivity]).
  unfold io_bind at 1. rewrite post_inner. simpl trace. simpl tasks.
  rewrite <- !app_assoc. simpl app.
  destruct (required_body (Some (JDict webhook_payload)))
    as [notification|] eqn:E.
  - rewrite (app_webhook_listener_route _ _ _ _ E).
    destruct (rendered (JDict _)) as [document|]; [|done].
    unfold try_except_ValueError, Response_json. io_run. done.
  - rewrite routes_app_webhook_listener, E.
    unfold endpoint, validation_error, JSONResponse_render.
    destruct (json_compliant _); [|done].
    unfold try_except_ValueError, Response_json. io_run. done.
Qed.

(** ** The event loop *)

Lemma loop_step_run c rest t :
  ∃ events,
    loop_step {| trace := t; tasks := c :: rest |}
    = {| trace := t ++
           [ Info "Waiting 1 second before dispatching webhook..." [];
             Sleep 1;
             Post (request_of c).1 (request_of c).2 10 ] ++ events;
         tasks := rest |}
    ∧ posts events = [].
Proof.
  destruct c as [webhook_payload]. unfold loop_step. simpl.
  rewrite dispatch_webhook_run. simpl.
  destruct (WebhookNotification.validate webhook_payload) as [notification|].
  - destruct (rendered (JDict _)) as [document|]; simpl;
      eexists; (split; [rewrite <- ?app_assoc; reflexivity|done]).
  - match goal with |- context [if ?b then _ else _] => destruct b end; simpl;
      eexists; (split; [rewrite <- ?app_assoc; reflexivity|done]).
Qed.

Lemma run_tasks_posts ts t :
  let w' := Nat.iter (length ts) loop_step {| trace := t; tasks := ts |} in
  tasks w' = [] ∧ posts (trace w') = posts t ++ (request_of <$> ts).
Proof.
  revert t. induction ts as [|c rest IH]; intros t; simpl.
  - by rewrite app_nil_r.
  - rewrite <- Nat.iter_succ, Nat.iter_succ_r.
    destruct (loop_step_run c rest t) as (events & -> & Hevents).
    destruct (IH (t ++
      [ Info "Waiting 1 second before dispatching webhook..." [];
        Sleep 1; Post (request_of c).1 (request_of c).2 10 ] ++ events))
      as [Htasks Hposts].
    split; [done|]. rewrite Hposts, !posts_app, Hevents. simpl.
    rewrite <- app_assoc. by destruct (request_of c).
Qed.

(** Running the loop until it is idle sends one request per pending task,
    in the order the tasks were created, and leaves no task behind. *)
Lemma run_until_idle_posts w :
  tasks (run_until_idle w) = []
  ∧ posts (trace (run_until_idle w)) = posts (trace w) ++ (request_of <$> tasks w).
Proof. destruct w as [t ts]. apply run_tasks_posts. Qed.

(** ** [POST /mock-gseal-api] *)



(** C10. The override test is [is not None]: the empty mapping given as
    [webhook_payload] is an override.  The answer carries [{}] and [{}] is
    what the new task will dispatch; nothing is made from [mock_payload]. *)
Theorem mock_gseal_api_empty_override :
  (∀ body (request : MockGsealRequest.t) w,
     required_body body = Some request →
     MockGsealRequest.webhook_payload request = Some ∅ →
     (serve "/mock-gseal-api" body w).1 =
       Return (JSONResponse 200 (JDict
         {[ "status" := JStr "webhook_scheduled"; "webhook_payload" := JDict ∅ ]}))
     ∧ tasks (serve "/mock-gseal-api" body w).2 = tasks w ++ [Dispatch_webhook ∅])
  ∧ (∀ (mock_payload : dict) w,
       let body := Some (JDict {[ "mock_payload" := JDict mock_payload;
                                  "webhook_payload" := JDict ∅ ]}) in
       (serve "/mock-gseal-api" body w).1 =
         Return (JSONResponse 200 (JDict
           {[ "status" := JStr "webhook_scheduled"; "webhook_payload" := JDict ∅ ]}))
       ∧ tasks (serve "/mock-gseal-api" body w).2 = tasks w ++ [Dispatch_webhook ∅]).
Proof.
  split.
  - intros body request w E Hsome.
    rewrite (serve_mock_gseal_api _ _ _ E). simpl. rewrite Hsome.
    by rewrite rendered_compliant.
  - intros mock_payload w body. unfold body.
    rewrite (serve_mock_gseal_api _
      {| MockGsealRequest.mock_payload := mock_payload;
         MockGsealRequest.webhook_payload := Some ∅ |}) by done.
    simpl. by rewrite rendered_compliant.
Qed.

(** ** [POST /app-webhook-listener] *)


(** C9. The payload the listener echoes is the validated notification, not
    the body as posted.  Whenever a body is answered 200, the echoed
    payload has for [event] the string the body's [event] validates to,
    or ["mock.document.completed"] if the body has none; for [data] the
    serialised mapping the body's [data] validates to, or [{}] if the body
    has none; and no key besides [event] and [data], whatever else the
    body held.  A body with neither field is always answered 200. *)
Theorem app_webhook_listener_normalizes :
  (∀ (input : dict) w response w',
     serve "/app-webhook-listener" (Some (JDict input)) w = (Return response, w') →
     status_code response = 200 →
     ∃ payload : dict,
       content response = Json (JDict
         {[ "status" := JStr "received"; "payload" := JDict payload ]})
       ∧ (input !! "event" = None →
          payload !! "event" = Some (JStr "mock.document.completed"))
       ∧ (input !! "data" = None → payload !! "data" = Some (JDict ∅))
       ∧ (∀ key, key ≠ "event" → key ≠ "data" → payload !! key = None)
       ∧ (∀ v, input !! "event" = Some v →
          ∃ event, as_str v = Some event ∧ payload !! "event" = Some (JStr event))
       ∧ (∀ v, input !! "data" = Some v →
          ∃ data, as_dict v = Some data
                  ∧ payload !! "data" = Some (serialize_response (JDict data))))
  ∧ (∀ (input : dict) w,
       input !! "event" = None →
       input !! "data" = None →
       (serve "/app-webhook-listener" (Some (JDict input)) w).1 =
       Return (JSONResponse 200 (JDict
         {[ "status" := JStr "received";
            "payload" := JDict {[ "event" := JStr "mock.document.completed";
                                  "data" := JDict ∅ ]} ]}))).
Proof.
  split.
  - intros input w response w' Hserve H200.
    destruct (required_body (Some (JDict input)))
      as [[e d]|] eqn:E.
    + rewrite (serve_app_webhook_listener _ _ _ E) in Hserve. simpl in Hserve.
      destruct (rendered (JDict {[ "event" := JStr e; "data" := JDict d ]}))
        as [document|] eqn:Ed;
        injection Hserve as <- <-; [|done].
      apply rendered_Some in Ed as [-> _].
      exists {[ "event" := JStr e; "data" := serialize_response (JDict d) ]}.
      split. { simpl. by rewrite fmap_insert, map_fmap_singleton. }
      simpl in E. unfold WebhookNotification.validate, field in E.
      split; [|split; [|split; [|split]]].
      * intros Hevent. rewrite Hevent in E.
        destruct (input !! "data") as [v|]; [destruct (as_dict v)|]; by simplify_eq.
      * intros Hdata. rewrite Hdata in E.
        destruct (input !! "event") as [v|]; [destruct (as_str v)|];
          simplify_eq; by rewrite ?lookup_insert_ne, ?lookup_singleton_eq.
      * intros key Hevent Hdata.
        rewrite lookup_insert_ne by done. by apply lookup_singleton_ne.
      * intros v Hevent. rewrite Hevent in E.
        destruct (as_str v) as [e'|]; [|done]. exists e'. split; [done|].
        destruct (input !! "data") as [v'|]; [destruct (as_dict v')|];
          by simplify_eq.
      * intros v Hdata. rewrite Hdata in E.
        destruct (input !! "event") as [v'|]; [destruct (as_str v')|];
          [|done|]; (destruct (as_dict v) as [d'|]; [|done]);
          exists d'; simplify_eq; by rewrite lookup_insert_ne, lookup_singleton_eq.
    + exfalso. unfold serve, server, app in Hserve.
      rewrite routes_app_webhook_listener, E in Hserve.
      unfold endpoint, validation_error, JSONResponse_render in Hserve.
      destruct (json_compliant _); simpl in Hserve;
        injection Hserve as <- _; simpl in H200; lia.
  - intros input w Hevent Hdata.
    rewrite (serve_app_webhook_listener _
      {| WebhookNotification.event := "mock.document.completed";
         WebhookNotification.data := ∅ |}).
    + simpl. by rewrite rendered_compliant.
    + simpl. unfold WebhookNotification.validate, field.
      by rewrite Hevent, Hdata.
Qed.

(** ** [POST /start-test] *)

(** C6, as the code has it.  A body that validates as a
    [StartTestRequest], or no body, is answered 200 with
    [status = "mock_request_dispatched"] and, under [mock_api_response],
    the document that [/mock-gseal-api] returned for the forwarded
    request, whenever [/mock-gseal-api] could write its answer out; that
    is so when the payload to dispatch (the override, or else the payload
    synthesised from [mock_payload]) holds no NaN, no infinity and only
    strings that can be encoded.  When [/mock-gseal-api] cannot write its
    answer out, the exception comes out of the request and [/start-test]
    is answered 500.  The absent body is answered 200. *)
Theorem start_test_succeeds :
  (∀ body (payload : option StartTestRequest.t) w,
     optional_body body = Some payload →
     let p := default StartTestRequest.new payload in
     let webhook_payload : dict :=
       match StartTestRequest.webhook_payload p with
       | Some override => override
       | None =>
           {[ "event" := JStr "mock.document.completed";
              "data" := JDict
                {[ "status" := JStr "completed";
                   "original_payload" := JDict (StartTestRequest.mock_payload p) ]} ]}
       end in
     json_compliant (JDict webhook_payload) = true →
     let forwarded := _model_to_dict p in
     let w1 := {| trace := trace w ++
                    [Info "Received /start-test request: %s" [JDict forwarded]];
                  tasks := tasks w |} in
     ∃ mock_api_response w2,
       post inner "/mock-gseal-api" (JDict forwarded) 10 w1
         = (Return (JSONResponse 200 mock_api_response), w2)
       ∧ serve "/start-test" body w =
         (Return (JSONResponse 200 (JDict
            {[ "status" := JStr "mock_request_dispatched";
               "mock_api_response" := mock_api_response ]})), w2))
  ∧ (∀ body (payload : option StartTestRequest.t) w,
       optional_body body = Some payload →
       let forwarded := _model_to_dict (default StartTestRequest.new payload) in
       let w1 := {| trace := trace w ++
                      [Info "Received /start-test request: %s" [JDict forwarded]];
                    tasks := tasks w |} in
       (∃ mock_api_response w2,
          post inner "/mock-gseal-api" (JDict forwarded) 10 w1
            = (Return (JSONResponse 200 mock_api_response), w2)
          ∧ serve "/start-test" body w =
            (Return (JSONResponse 200 (JDict
               {[ "status" := JStr "mock_request_dispatched";
                  "mock_api_response" := mock_api_response ]})), w2))
       ∨ (∃ w2,
            post inner "/mock-gseal-api" (JDict forwarded) 10 w1
              = (Raise ValueError, w2)
            ∧ serve "/start-test" body w =
              (Return {| status_code := 500; content := Text "Internal Server Error" |},
               w2)))
  ∧ (∀ w,
       (serve "/start-test" None w).1 =
       Return (JSONResponse 200 (JDict
         {[ "status" := JStr "mock_request_dispatched";
            "mock_api_response" := JDict
              {[ "status" := JStr "webhook_scheduled";
                 "webhook_payload" := JDict
                   {[ "event" := JStr "mock.document.completed";
                      "data" := JDict
                        {[ "status" := JStr "completed";
                           "original_payload" := JDict
                             {[ "document_id" := JStr "demo-document" ]} ]} ]} ]} ]}))).
Proof.
  assert (∀ (payload : option StartTestRequest.t) w,
    let p := default StartTestRequest.new payload in
    let forwarded := _model_to_dict p in
    let webhook_payload : dict :=
      match StartTestRequest.webhook_payload p with
      | Some override => override
      | None =>
          {[ "event" := JStr "mock.document.completed";
             "data" := JDict
               {[ "status" := JStr "completed";
                  "original_payload" := JDict (StartTestRequest.mock_payload p) ]} ]}
      end in
    let w2 :=
      {| trace := trace w ++
           [ Info "Received /start-test request: %s" [JDict forwarded];
             Post (INTERNAL_BASE_URL +:+ "/mock-gseal-api") (JDict forwarded) 10;
             Info "Mock GSeal API received payload: %s" [JDict forwarded] ];
         tasks := tasks w ++ [Dispatch_webhook webhook_payload] |} in
    post inner "/mock-gseal-api" (JDict forwarded) 10
      {| trace := trace w ++
           [Info "Received /start-test request: %s" [JDict forwarded]];
         tasks := tasks w |}
    = match rendered (JDict webhook_payload) with
      | Some document =>
          (Return (JSONResponse 200 (JDict
             {[ "status" := JStr "webhook_scheduled";
                "webhook_payload" := document ]})), w2)
      | None => (Raise ValueError, w2)
      end) as Hpost.
  { intros payload w p forwarded webhook_payload w2.
    rewrite post_inner.
    rewrite (mock_gseal_api_route _ _ _ _ (forwarded_validates p)).
    rewrite forwarded_dict. simpl. fold forwarded. fold webhook_payload.
    unfold w2. by rewrite <- !app_assoc. }
  split; [|split].
  - intros body payload w E p webhook_payload Hwp forwarded w1.
    pose proof (Hpost payload w) as Hp. simpl in Hp.
    fold p forwarded webhook_payload w1 in Hp.
    rewrite (rendered_compliant _ Hwp) in Hp.
    do 2 eexists. split; [exact Hp|].
    rewrite (serve_start_test_run _ _ _ E). fold p forwarded webhook_payload.
    by rewrite (rendered_compliant _ Hwp).
  - intros body payload w E forwarded w1.
    pose proof (Hpost payload w) as Hp. simpl in Hp. fold forwarded w1 in Hp.
    rewrite (serve_start_test_run _ _ _ E). fold forwarded.
    destruct (rendered (JDict _)) as [document|].
    + left. do 2 eexists. split; [exact Hp|done].
    + right. eexists. split; [exact Hp|done].
  - intros w. rewrite (serve_start_test_run None None) by done.
    simpl. by rewrite rendered_compliant.
Qed.

(** C8. The mapping [start_test] posts to [/mock-gseal-api] is the request
    without its [None] fields: [mock_payload] is always there (the default
    [{"document_id": "demo-document"}] when the body gave none), a
    [webhook_payload] that is absent is no key of the mapping, and no key
    holds [None]. *)
Theorem start_test_forwards_without_none :
  (∀ body (payload : option StartTestRequest.t) w,
     optional_body body = Some payload →
     let p := default StartTestRequest.new payload in
     ∃ forwarded : dict,
       posts (trace (serve "/start-test" body w).2)
         = posts (trace w) ++ [(INTERNAL_BASE_URL +:+ "/mock-gseal-api", JDict forwarded)]
       ∧ forwarded !! "mock_payload" = Some (JDict (StartTestRequest.mock_payload p))
       ∧ (StartTestRequest.webhook_payload p = None →
          forwarded !! "webhook_payload" = None)
       ∧ (∀ override, StartTestRequest.webhook_payload p = Some override →
          forwarded !! "webhook_payload" = Some (JDict override))
       ∧ (∀ key, forwarded !! key ≠ Some JNull))
  ∧ (∀ (input : dict) (payload : StartTestRequest.t),
       optional_body (Some (JDict input)) = Some (Some payload) →
       (input !! "mock_payload" = None →
        StartTestRequest.mock_payload payload
          = {[ "document_id" := JStr "demo-document" ]})
       ∧ (input !! "webhook_payload" = None →
          StartTestRequest.webhook_payload payload = None))
  ∧ StartTestRequest.mock_payload (default StartTestRequest.new None)
      = {[ "document_id" := JStr "demo-document" ]}.
Proof.
  split; [|split; [|done]].
  - intros body payload w E p.
    exists (_model_to_dict p). split; [|split; [|split; [|split]]].
    + rewrite (serve_start_test_run _ _ _ E). simpl.
      by rewrite posts_app.
    + destruct p as [mp wp]. rewrite StartTestRequest_to_dict. by destruct wp.
    + destruct p as [mp wp]. simpl. intros ->. by rewrite StartTestRequest_to_dict.
    + destruct p as [mp wp]. simpl. intros override ->.
      by rewrite StartTestRequest_to_dict.
    + intros key Hkey. rewrite _model_to_dict_eq in Hkey.
      by apply dump_fields_no_none in Hkey.
  - intros input payload E. simpl in E.
    unfold StartTestRequest.validate, field in E.
    split.
    + intros Hmp. rewrite Hmp in E.
      destruct (input !! "webhook_payload") as [v|];
        [destruct (as_opt_dict v)|]; by simplify_eq/=.
    + intros Hwp. rewrite Hwp in E.
      destruct (input !! "mock_payload") as [v|];
        [destruct (as_dict v)|]; by simplify_eq/=.
Qed.

(** C4. When the request to [/mock-gseal-api] comes back with a status
    outside 2xx, [start_test] raises [HTTPStatusError] for that status: the
    handler returns no dict, and the caller of [/start-test] is answered
    500 instead of the success body. *)
Theorem start_test_propagates_failure :
  ∀ (client : AsyncClient) (payload : option StartTestRequest.t) w response w',
    let forwarded := _model_to_dict (default StartTestRequest.new payload) in
    post client "/mock-gseal-api" (JDict forwarded) 10
      {| trace := trace w ++
           [Info "Received /start-test request: %s" [JDict forwarded]];
         tasks := tasks w |}
      = (Return response, w') →
    is_success response = false →
    start_test client payload w = (Raise (HTTPStatusError (status_code response)), w')
    ∧ (∀ body,
         optional_body body = Some payload →
         server (routes client) "/start-test" body w =
         (Return {| status_code := 500; content := Text "Internal Server Error" |}, w')).
Proof.
  intros client payload w response w' forwarded Hpost Hfail.
  assert (start_test client payload w
          = (Raise (HTTPStatusError (status_code response)), w')) as Hraise.
  { unfold start_test. fold forwarded. unfold logger_info.
    erewrite io_bind_return; [|reflexivity].
    erewrite io_bind_return; [|exact Hpost].
    unfold raise_for_status. rewrite Hfail. by io_run. }
  split; [done|].
  intros body E. apply (server_raise _ _ _ _ (HTTPStatusError (status_code response))).
  rewrite routes_start_test, E. by apply endpoint_raises.
Qed.

(** ** The dispatcher *)

(** C7. Once the listener has answered, [dispatch_webhook] returns
    normally whatever the body is: when [Response.json] raises
    [ValueError] the text of the body is logged in place of the parsed
    document, next to the status code, and nothing is raised. *)
Theorem dispatch_webhook_falls_back_to_text :
  ∀ (client : AsyncClient) (webhook_payload : dict) w response w',
    post client "/app-webhook-listener" (JDict webhook_payload) 10
      {| trace := trace w ++
           [Info "Waiting 1 second before dispatching webhook..." []; Sleep 1];
         tasks := tasks w |}
      = (Return response, w') →
    (Response_json response w' = (Raise ValueError, w') →
     dispatch_webhook client webhook_payload w =
     (Return tt,
      {| trace := trace w' ++
           [Info "Webhook POST completed with status %s and payload %s"
              [JInt (status_code response); JStr (Response_text response)]];
         tasks := tasks w' |}))
    ∧ (∀ parsed, Response_json response w' = (Return parsed, w') →
       dispatch_webhook client webhook_payload w =
       (Return tt,
        {| trace := trace w' ++
             [Info "Webhook POST completed with status %s and payload %s"
                [JInt (status_code response); parsed]];
           tasks := tasks w' |}))
    ∧ (∃ w'', dispatch_webhook client webhook_payload w = (Return tt, w'')).
Proof.
  intros client webhook_payload w response w' Hpost.
  assert (dispatch_webhook client webhook_payload w =
          io_bind (try_except_ValueError (Response_json response)
                     (io_ret (JStr (Response_text response))))
            (λ response_payload,
               logger_info "Webhook POST completed with status %s and payload %s"
                 [JInt (status_code response); response_payload]) w') as ->.
  { unfold dispatch_webhook, logger_info, asyncio_sleep.
    do 2 (erewrite io_bind_return; [|reflexivity]).
    simpl. rewrite <- app_assoc. simpl.
    by erewrite io_bind_return; [|exact Hpost]. }
  unfold io_bind, try_except_ValueError, Response_json, Response_text.
  destruct (content response) as [j|s]; io_run.
  - split; [by intros [=]|]. split; [|by eexists]. by intros parsed [= <-].
  - split; [done|]. split; [by intros parsed [=]|by eexists].
Qed.


End Properties.

(** * Further properties of the module *)

Section Further.
Context `{Framework}.

(** ** Serialisation and validation *)

(** X1. [_model_to_dict] loses nothing that validation needs: the mapping
    made from an instance of any of the three models validates as that
    same instance. *)
Theorem model_to_dict_validates :
  (∀ payload : StartTestRequest.t,
     model_validate (_model_to_dict payload) = Some payload)
  ∧ (∀ request : MockGsealRequest.t,
       model_validate (_model_to_dict request) = Some request)
  ∧ (∀ notification : WebhookNotification.t,
       model_validate (_model_to_dict notification) = Some notification).
Proof.
  split; [|split].
  - intros [mp wp]. rewrite StartTestRequest_to_dict. by destruct wp.
  - intros [mp wp]. rewrite MockGsealRequest_to_dict. by destruct wp.
  - intros [e d]. by rewrite WebhookNotification_to_dict.
Qed.

(** X2. The payload the listener echoes is a fixed point of the listener:
    whenever a body is answered 200, the echoed payload, posted again, is
    accepted and answered 200 with that same payload. *)
Theorem app_webhook_listener_echo_idempotent :
  ∀ body w response w',
    serve "/app-webhook-listener" body w = (Return response, w') →
    status_code response = 200 →
    ∃ payload : dict,
      content response = Json (JDict
        {[ "status" := JStr "received"; "payload" := JDict payload ]})
      ∧ ∀ w'',
          (serve "/app-webhook-listener" (Some (JDict payload)) w'').1 =
          Return (JSONResponse 200 (JDict
            {[ "status" := JStr "received"; "payload" := JDict payload ]})).
Proof.
  intros body w response w' Hserve H200.
  destruct (required_body body) as [[e d]|] eqn:E.
  - rewrite (serve_app_webhook_listener _ _ _ E) in Hserve. simpl in Hserve.
    destruct (rendered (JDict {[ "event" := JStr e; "data" := JDict d ]}))
      as [document|] eqn:Ed;
      injection Hserve as <- <-; [|done].
    apply rendered_Some in Ed as [-> Hdocument].
    assert (serialize_response (JDict {[ "event" := JStr e; "data" := JDict d ]})
            = JDict {[ "event" := JStr e;
                       "data" := JDict (serialize_response <$> d) ]}) as Hs.
    { simpl. by rewrite fmap_insert, map_fmap_singleton. }
    rewrite Hs in Hdocument |- *.
    exists {[ "event" := JStr e; "data" := JDict (serialize_response <$> d) ]}.
    split; [done|]. intros w''.
    rewrite (serve_app_webhook_listener _
      {| WebhookNotification.event := e;
         WebhookNotification.data := serialize_response <$> d |}) by done.
    simpl. by rewrite (rendered_compliant _ Hdocument).
  - exfalso. unfold serve, server, app in Hserve.
    rewrite routes_app_webhook_listener, E in Hserve.
    unfold endpoint, validation_error, JSONResponse_render in Hserve.
    destruct (json_compliant _); simpl in Hserve;
      injection Hserve as <- _; simpl in H200; lia.
Qed.

(** X3. For [/mock-gseal-api] a [webhook_payload] given as [null] is the
    same as none given: the request validates to the same model, one
    without override, so the answer, the log line and the new task are
    the same. *)
Theorem mock_gseal_api_null_override :
  ∀ (input : dict) (request : MockGsealRequest.t) w,
    required_body (Some (JDict (delete "webhook_payload" input))) = Some request →
    required_body (Some (JDict (<["webhook_payload" := JNull]> input))) = Some request
    ∧ MockGsealRequest.webhook_payload request = None
    ∧ serve "/mock-gseal-api" (Some (JDict (<["webhook_payload" := JNull]> input))) w
      = serve "/mock-gseal-api" (Some (JDict (delete "webhook_payload" input))) w.
Proof.
  intros input request w E.
  assert (required_body (Some (JDict (<["webhook_payload" := JNull]> input)))
          = Some request
          ∧ MockGsealRequest.webhook_payload request = None) as [E' Hnone].
  { simpl in *. unfold MockGsealRequest.validate, field in *.
    rewrite lookup_delete_eq in E. rewrite lookup_delete_ne in E by done.
    rewrite lookup_insert_eq. rewrite lookup_insert_ne by done. simpl.
    destruct (input !! "mock_payload") as [v|]; [destruct (as_dict v)|];
      by simplify_eq/=. }
  split; [done|]. split; [done|].
  by rewrite (serve_mock_gseal_api _ _ _ E), (serve_mock_gseal_api _ _ _ E').
Qed.

(** X4. Whatever the fields of a model, as long as their names differ,
    [_model_to_dict] holds exactly the fields whose value is not [None],
    each with its value. *)
Theorem model_to_dict_lookup :
  ∀ {M} `{BaseModel M} (model : M) (name : string) (v : json),
    NoDup (model_fields model).*1 →
    (_model_to_dict model !! name = Some v
     ↔ (name, v) ∈ model_fields model ∧ is_none v = false).
Proof.
  intros M HM model name v. rewrite _model_to_dict_eq.
  generalize (model_fields model) as fs.
  induction fs as [|[k x] fs IH]; simpl; intros Hdup.
  - rewrite lookup_empty. split; [done|]. intros [Hin _]. by apply elem_of_nil in Hin.
  - apply NoDup_cons in Hdup as [Hk Hdup]. specialize (IH Hdup).
    rewrite elem_of_cons.
    destruct (is_none x) eqn:Ex.
    + rewrite IH. split; [intros [Hin Hv]; by split; [right|]|].
      intros [[Heq|Hin] Hv]; [|done]. injection Heq as -> ->. congruence.
    + destruct (decide (k = name)) as [->|Hne].
      * rewrite lookup_insert_eq. split.
        -- intros Heq. injection Heq as <-. split; [by left|done].
        -- intros [[Heq|Hin] _]; [by injection Heq as ->|].
           exfalso. apply Hk. apply list_elem_of_fmap. by exists (name, v).
      * rewrite lookup_insert_ne by done. rewrite IH.
        split; [intros [Hin Hv]; by split; [right|]|].
        intros [[Heq|Hin] Hv]; [|done]. by injection Heq as -> ->.
Qed.

(** ** The logger *)

(** X5. Loading the module again does not pile up handlers: setting the
    logger up twice leaves it as setting it up once does, a logger that
    has handlers keeps exactly those, the level is [INFO] afterwards, and
    after any number of set-ups the logger has as many handlers as it had,
    or one if it had none. *)
Theorem setup_logger_idempotent :
  ∀ logger,
    setup_logger (setup_logger logger) = setup_logger logger
    ∧ level (setup_logger logger) = INFO
    ∧ (handlers logger ≠ [] → handlers (setup_logger logger) = handlers logger)
    ∧ (∀ n, length (handlers (Nat.iter (S n) setup_logger logger))
            = Nat.max 1 (length (handlers logger))).
Proof.
  intros [hs lv].
  assert (∀ l, setup_logger (setup_logger l) = setup_logger l) as Hidem.
  { intros [hs' lv']. by destruct hs'. }
  assert (∀ l, length (handlers (setup_logger l))
               = Nat.max 1 (length (handlers l))) as Hlen.
  { intros [hs' lv']. destruct hs'; simpl; lia. }
  split; [apply Hidem|]. split; [done|]. split.
  - simpl. by destruct hs.
  - intros n. induction n as [|n IH]; [apply Hlen|].
    rewrite Nat.iter_succ, Hlen, IH. lia.
Qed.

(** ** [start_test] against any client *)

(** [start_test] by what the request comes to. *)
Lemma start_test_cases (client : AsyncClient) (payload : option StartTestRequest.t) w :
  let forwarded := _model_to_dict (default StartTestRequest.new payload) in
  start_test client payload w =
  match post client "/mock-gseal-api" (JDict forwarded) 10
          {| trace := trace w ++
               [Info "Received /start-test request: %s" [JDict forwarded]];
             tasks := tasks w |} with
  | (Return response, w') =>
      if is_success response then
        match content response with
        | Json mock_api_response =>
            (Return {[ "status" := JStr "mock_request_dispatched";
                       "mock_api_response" := mock_api_response ]}, w')
        | Text _ => (Raise ValueError, w')
        end
      else (Raise (HTTPStatusError (status_code response)), w')
  | (Raise e, w') => (Raise e, w')
  end.
Proof.
  intros forwarded. unfold start_test. fold forwarded. unfold logger_info.
  erewrite io_bind_return; [|reflexivity].
  unfold io_bind at 1.
  destruct (post client "/mock-gseal-api" (JDict forwarded) 10 _)
    as [[response|e] w']; [|done].
  unfold raise_for_status, Response_json.
  destruct (is_success response); [|by io_run].
  by destruct (content response); io_run.
Qed.

Lemma server_start_test (client : AsyncClient) body
    (payload : option StartTestRequest.t) w :
  optional_body body = Some payload →
  server (routes client) "/start-test" body w =
  match start_test client payload w with
  | (Return result, w') =>
      match rendered (JDict result) with
      | Some document => (Return (JSONResponse 200 document), w')
      | None =>
          (Return {| status_code := 500; content := Text "Internal Server Error" |}, w')
      end
  | (Raise e, w') =>
      (Return {| status_code := 500; content := Text "Internal Server Error" |}, w')
  end.
Proof.
  intros E. unfold server. rewrite routes_start_test, E.
  destruct (start_test client payload w) as [[result|e] w'] eqn:Es.
  - rewrite (endpoint_accepted _ _ _ _ _ _ _ Es).
    by destruct (rendered (JDict result)).
  - by rewrite (endpoint_raises _ _ _ _ _ _ _ Es).
Qed.

(** X6. A [webhook_payload] given as [null] to [/start-test] is dropped
    before forwarding: the request validates to one without override, the
    mapping sent to [/mock-gseal-api] has no [webhook_payload] key, and the
    task that is created carries the payload synthesised from
    [mock_payload]. *)
Theorem start_test_null_override :
  ∀ (input : dict) (payload : StartTestRequest.t) w,
    optional_body (Some (JDict input)) = Some (Some payload) →
    input !! "webhook_payload" = Some JNull →
    StartTestRequest.webhook_payload payload = None
    ∧ posts (trace (serve "/start-test" (Some (JDict input)) w).2) =
        posts (trace w) ++
        [(INTERNAL_BASE_URL +:+ "/mock-gseal-api",
          JDict {[ "mock_payload" := JDict (StartTestRequest.mock_payload payload) ]})]
    ∧ tasks (serve "/start-test" (Some (JDict input)) w).2 =
        tasks w ++
        [Dispatch_webhook
           {[ "event" := JStr "mock.document.completed";
              "data" := JDict
                {[ "status" := JStr "completed";
                   "original_payload" :=
                     JDict (StartTestRequest.mock_payload payload) ]} ]}].
Proof.
  intros input payload w E Hnull.
  assert (StartTestRequest.webhook_payload payload = None) as Hnone.
  { simpl in E. unfold StartTestRequest.validate, field in E.
    rewrite Hnull in E. simpl in E.
    destruct (input !! "mock_payload") as [v|]; [destruct (as_dict v)|];
      by simplify_eq/=. }
  split; [done|].
  destruct payload as [mp wp]. simpl in Hnone. subst wp.
  rewrite (serve_start_test_run _ _ _ E). cbv zeta.
  cbn [fst snd trace tasks default from_option id
       StartTestRequest.webhook_payload StartTestRequest.mock_payload].
  rewrite StartTestRequest_to_dict.
  split; [|done]. by rewrite posts_app.
Qed.

(** X7. Whatever the client, when the request to [/mock-gseal-api] is
    answered 2xx with a JSON document, [start_test] returns that document
    as it is under [mock_api_response], and does nothing after the
    request. *)
Theorem start_test_returns_document :
  ∀ (client : AsyncClient) (payload : option StartTestRequest.t) w response w'
    mock_api_response,
    let forwarded := _model_to_dict (default StartTestRequest.new payload) in
    post client "/mock-gseal-api" (JDict forwarded) 10
      {| trace := trace w ++
           [Info "Received /start-test request: %s" [JDict forwarded]];
         tasks := tasks w |}
      = (Return response, w') →
    is_success response = true →
    content response = Json mock_api_response →
    start_test client payload w =
    (Return {[ "status" := JStr "mock_request_dispatched";
               "mock_api_response" := mock_api_response ]}, w').
Proof.
  intros client payload w response w' mock_api_response forwarded Hpost Hok Hjson.
  rewrite start_test_cases. fold forwarded. by rewrite Hpost, Hok, Hjson.
Qed.

(** X8. A 2xx answer whose body is not JSON makes [start_test] raise
    [ValueError]: [response.json()] is not guarded there, and the caller
    of [/start-test] is answered 500. *)
Theorem start_test_not_json :
  ∀ (client : AsyncClient) (payload : option StartTestRequest.t) w response w' text,
    let forwarded := _model_to_dict (default StartTestRequest.new payload) in
    post client "/mock-gseal-api" (JDict forwarded) 10
      {| trace := trace w ++
           [Info "Received /start-test request: %s" [JDict forwarded]];
         tasks := tasks w |}
      = (Return response, w') →
    is_success response = true →
    content response = Text text →
    start_test client payload w = (Raise ValueError, w')
    ∧ (∀ body,
         optional_body body = Some payload →
         server (routes client) "/start-test" body w =
         (Return {| status_code := 500; content := Text "Internal Server Error" |}, w')).
Proof.
  intros client payload w response w' text forwarded Hpost Hok Htext.
  assert (start_test client payload w = (Raise ValueError, w')) as Hraise.
  { rewrite start_test_cases. fold forwarded. by rewrite Hpost, Hok, Htext. }
  split; [done|]. intros body E.
  by rewrite (server_start_test _ _ _ _ E), Hraise.
Qed.

(** X9. An exception of the request itself leaves [start_test] as it is,
    whatever it is: nothing is logged after it and the caller of
    [/start-test] is answered 500. *)
Theorem start_test_request_fails :
  ∀ (client : AsyncClient) (payload : option StartTestRequest.t) w e w',
    let forwarded := _model_to_dict (default StartTestRequest.new payload) in
    post client "/mock-gseal-api" (JDict forwarded) 10
      {| trace := trace w ++
           [Info "Received /start-test request: %s" [JDict forwarded]];
         tasks := tasks w |}
      = (Raise e, w') →
    start_test client payload w = (Raise e, w')
    ∧ (∀ body,
         optional_body body = Some payload →
         server (routes client) "/start-test" body w =
         (Return {| status_code := 500; content := Text "Internal Server Error" |}, w')).
Proof.
  intros client payload w e w' forwarded Hpost.
  assert (start_test client payload w = (Raise e, w')) as Hraise.
  { rewrite start_test_cases. fold forwarded. by rewrite Hpost. }
  split; [done|]. intros body E.
  by rewrite (server_start_test _ _ _ _ E), Hraise.
Qed.

(** X10. [/start-test] with no body, with [null] and with [{}] is the same
    request: each runs the default [StartTestRequest()]. *)
Theorem start_test_empty_bodies :
  ∀ w,
    serve "/start-test" (Some JNull) w = serve "/start-test" None w
    ∧ serve "/start-test" (Some (JDict ∅)) w = serve "/start-test" None w
    ∧ posts (trace (serve "/start-test" None w).2) =
      posts (trace w) ++
      [(INTERNAL_BASE_URL +:+ "/mock-gseal-api",
        JDict {[ "mock_payload" := JDict {[ "document_id" := JStr "demo-document" ]} ]})].
Proof.
  intros w.
  rewrite (serve_start_test_run (Some JNull) None) by done.
  rewrite (serve_start_test_run (Some (JDict ∅)) (Some StartTestRequest.new)) by done.
  rewrite (serve_start_test_run None None) by done.
  split; [done|]. split; [done|].
  cbn [snd trace]. rewrite posts_app. simpl. by rewrite _model_to_dict_eq.
Qed.

(** ** The dispatcher and the loop *)

(** X11. The [try] of [dispatch_webhook] covers only [response.json()]: an
    exception of the request itself, [ValueError] included, leaves the
    task, and the closing line is not logged. *)
Theorem dispatch_webhook_request_fails :
  ∀ (client : AsyncClient) (webhook_payload : dict) w e w',
    post client "/app-webhook-listener" (JDict webhook_payload) 10
      {| trace := trace w ++
           [Info "Waiting 1 second before dispatching webhook..." []; Sleep 1];
         tasks := tasks w |}
      = (Raise e, w') →
    dispatch_webhook client webhook_payload w = (Raise e, w').
Proof.
  intros client webhook_payload w e w' Hpost.
  unfold dispatch_webhook, logger_info, asyncio_sleep.
  do 2 (erewrite io_bind_return; [|reflexivity]).
  simpl. rewrite <- app_assoc. simpl.
  by erewrite io_bind_raise; [|exact Hpost].
Qed.



(** X14. Running the loop until it is idle ends every pending task, and
    every one of them has sent its one request, its own payload to the
    listener, in the order the tasks were created, whether or not the
    deliveries before it failed. *)
Theorem loop_delivers_every_task :
  ∀ w,
    tasks (run_until_idle w) = []
    ∧ posts (trace (run_until_idle w)) =
        posts (trace w) ++ (request_of <$> tasks w).
Proof. intros w. apply run_until_idle_posts. Qed.

(** ** A whole test run *)

(** X15. A test run from [/start-test] to the idle loop sends two requests
    of its own: the request's mapping to [/mock-gseal-api], and later the
    scheduled payload (the override, or else the synthesised one) to
    [/app-webhook-listener], after the requests of the tasks that were
    already pending.  No task is left. *)
Theorem start_test_full_run :
  ∀ body (payload : option StartTestRequest.t) w,
    optional_body body = Some payload →
    let p := default StartTestRequest.new payload in
    let webhook_payload : dict :=
      match StartTestRequest.webhook_payload p with
      | Some override => override
      | None =>
          {[ "event" := JStr "mock.document.completed";
             "data" := JDict
               {[ "status" := JStr "completed";
                  "original_payload" := JDict (StartTestRequest.mock_payload p) ]} ]}
      end in
    let w' := run_until_idle (serve "/start-test" body w).2 in
    tasks w' = []
    ∧ posts (trace w') =
        posts (trace w)
        ++ [(INTERNAL_BASE_URL +:+ "/mock-gseal-api", JDict (_model_to_dict p))]
        ++ (request_of <$> tasks w)
        ++ [(INTERNAL_BASE_URL +:+ "/app-webhook-listener", JDict webhook_payload)].
Proof.
  intros body payload w E p webhook_payload w'. unfold w'.
  rewrite (serve_start_test_run _ _ _ E). cbn [snd]. fold p. fold webhook_payload.
  match goal with |- context [run_until_idle ?w1] =>
    destruct (run_until_idle_posts w1) as [Htasks Hposts] end.
  split; [done|].
  rewrite Hposts. cbn [trace tasks]. rewrite posts_app, fmap_app. simpl.
  by rewrite <- !app_assoc.
Qed.


(** X17. A payload that the listener accepts but whose echo cannot be
    written out ends its task with [ValueError]: the exception comes out
    of the request, which the [try] of [dispatch_webhook] does not cover,
    after the listener has logged the payload and before any closing
    line.  The loop reports the exception and goes on with the tasks
    behind. *)
Theorem undeliverable_payload_fails :
  ∀ (webhook_payload : dict) (notification : WebhookNotification.t) w,
    required_body (Some (JDict webhook_payload)) = Some notification →
    let received : dict :=
      {[ "event" := JStr (WebhookNotification.event notification);
         "data" := JDict (WebhookNotification.data notification) ]} in
    rendered (JDict received) = None →
    let w' :=
      {| trace := trace w ++
           [ Info "Waiting 1 second before dispatching webhook..." [];
             Sleep 1;
             Post (INTERNAL_BASE_URL +:+ "/app-webhook-listener")
               (JDict webhook_payload) 10;
             Info "Webhook listener received payload: %s" [JDict received] ];
         tasks := tasks w |} in
    run_coroutine (Dispatch_webhook webhook_payload) w = (Raise ValueError, w')
    ∧ ∀ rest,
        loop_step {| trace := trace w;
                     tasks := Dispatch_webhook webhook_payload :: rest |}
        = {| trace := trace w' ++ [Never_retrieved ValueError]; tasks := rest |}.
Proof.
  intros webhook_payload notification w E received Hnone w'.
  assert (∀ ts,
    run_coroutine (Dispatch_webhook webhook_payload) {| trace := trace w; tasks := ts |}
    = (Raise ValueError, {| trace := trace w'; tasks := ts |})) as Hrun.
  { intros ts. unfold run_coroutine. rewrite dispatch_webhook_run. cbv zeta.
    rewrite E. fold received. rewrite Hnone. unfold w'. cbn [trace tasks].
    by rewrite <- app_assoc. }
  split.
  - destruct w as [t ts]. apply (Hrun ts).
  - intros rest. unfold loop_step. cbn [tasks trace]. by rewrite (Hrun rest).
Qed.

End Further.

(** * The model, run

    Each statement above that has a premise, applied to a concrete request
    on the installation [pydantic2]. *)

#[local] Existing Instance pydantic2.

Lemma mock_gseal_api_empty_override_witness :
  required_body
    (Some (JDict {[ "mock_payload" := JDict {[ "document_id" := JStr "doc-1" ]};
                    "webhook_payload" := JDict ∅ ]}))
  = Some {| MockGsealRequest.mock_payload := {[ "document_id" := JStr "doc-1" ]};
            MockGsealRequest.webhook_payload := Some ∅ |}
  ∧ (serve "/mock-gseal-api"
       (Some (JDict {[ "mock_payload" := JDict {[ "document_id" := JStr "doc-1" ]};
                       "webhook_payload" := JDict ∅ ]}))
       idle).1 =
    Return (JSONResponse 200 (JDict
      {[ "status" := JStr "webhook_scheduled"; "webhook_payload" := JDict ∅ ]}))
  ∧ tasks (serve "/mock-gseal-api"
       (Some (JDict {[ "mock_payload" := JDict {[ "document_id" := JStr "doc-1" ]};
                       "webhook_payload" := JDict ∅ ]}))
       idle).2 = tasks idle ++ [Dispatch_webhook ∅].
Proof.
  split; [reflexivity|].
  exact (proj1 mock_gseal_api_empty_override
           (Some (JDict {[ "mock_payload" := JDict {[ "document_id" := JStr "doc-1" ]};
                           "webhook_payload" := JDict ∅ ]}))
           {| MockGsealRequest.mock_payload := {[ "document_id" := JStr "doc-1" ]};
              MockGsealRequest.webhook_payload := Some ∅ |}
           idle eq_refl eq_refl).
Defined.

Lemma start_test_forwards_without_none_witness :
  optional_body None = Some (None : option StartTestRequest.t)
  ∧ (∃ forwarded : dict,
       posts (trace (serve "/start-test" None idle).2)
         = [(INTERNAL_BASE_URL +:+ "/mock-gseal-api", JDict forwarded)]
       ∧ forwarded !! "mock_payload"
         = Some (JDict {[ "document_id" := JStr "demo-document" ]})
       ∧ forwarded !! "webhook_payload" = None)
  ∧ optional_body (Some (JDict ∅)) = Some (Some StartTestRequest.new)
  ∧ StartTestRequest.mock_payload StartTestRequest.new
    = {[ "document_id" := JStr "demo-document" ]}
  ∧ StartTestRequest.webhook_payload StartTestRequest.new = None.
Proof.
  assert (optional_body None = Some (None : option StartTestRequest.t)) as E
    by reflexivity.
  assert (optional_body (Some (JDict ∅)) = Some (Some StartTestRequest.new)) as E'
    by reflexivity.
  split; [exact E|]. split.
  - destruct (proj1 start_test_forwards_without_none _ _ idle E)
      as (forwarded & Hposts & Hmock & Hnone & _).
    exists forwarded. split; [exact Hposts|]. split; [exact Hmock|].
    apply Hnone. reflexivity.
  - split; [exact E'|].
    destruct (proj1 (proj2 start_test_forwards_without_none) _ _ E') as [Hmock Hnone].
    split; [apply Hmock|apply Hnone]; reflexivity.
Defined.

Lemma start_test_propagates_failure_witness :
  post unavailable "/mock-gseal-api"
    (JDict {[ "mock_payload" := JDict {[ "document_id" := JStr "demo-document" ]} ]}) 10
    {| trace :=
         [Info "Received /start-test request: %s"
            [JDict {[ "mock_payload" := JDict {[ "document_id" := JStr "demo-document" ]} ]}]];
       tasks := [] |}
  = (Return {| status_code := 503; content := Text "Service Unavailable" |},
     {| trace :=
          [ Info "Received /start-test request: %s"
              [JDict {[ "mock_payload" := JDict {[ "document_id" := JStr "demo-document" ]} ]}];
            Post "http://testserver/mock-gseal-api"
              (JDict {[ "mock_payload" := JDict {[ "document_id" := JStr "demo-document" ]} ]})
              10 ];
        tasks := [] |})
  ∧ is_success {| status_code := 503; content := Text "Service Unavailable" |} = false
  ∧ (start_test unavailable None idle).1 = Raise (HTTPStatusError 503)
  ∧ (server (routes unavailable) "/start-test" None idle).1
    = Return {| status_code := 500; content := Text "Internal Server Error" |}.
Proof.
  split; [reflexivity|]. split; [reflexivity|].
  destruct (start_test_propagates_failure unavailable None idle
              {| status_code := 503; content := Text "Service Unavailable" |}
              {| trace :=
                   [ Info "Received /start-test request: %s"
                       [JDict {[ "mock_payload" :=
                                   JDict {[ "document_id" := JStr "demo-document" ]} ]}];
                     Post "http://testserver/mock-gseal-api"
                       (JDict {[ "mock_payload" :=
                                   JDict {[ "document_id" := JStr "demo-document" ]} ]})
                       10 ];
                 tasks := [] |}
              eq_refl eq_refl) as [Hraise Hserver].
  split.
  - by rewrite Hraise.
  - by rewrite (Hserver None eq_refl).
Defined.

Lemma dispatch_webhook_falls_back_to_text_witness :
  Response_json {| status_code := 503; content := Text "Service Unavailable" |} idle
  = (Raise ValueError, idle)
  ∧ dispatch_webhook unavailable {[ "event" := JStr "signed" ]} idle =
    (Return tt,
     {| trace :=
          [ Info "Waiting 1 second before dispatching webhook..." [];
            Sleep 1;
            Post "http://testserver/app-webhook-listener"
              (JDict {[ "event" := JStr "signed" ]}) 10;
            Info "Webhook POST completed with status %s and payload %s"
              [JInt 503; JStr "Service Unavailable"] ];
        tasks := [] |}).
Proof.
  split; [reflexivity|].
  exact (proj1 (dispatch_webhook_falls_back_to_text unavailable
                  {[ "event" := JStr "signed" ]} idle
                  {| status_code := 503; content := Text "Service Unavailable" |}
                  {| trace :=
                       [ Info "Waiting 1 second before dispatching webhook..." [];
                         Sleep 1;
                         Post "http://testserver/app-webhook-listener"
                           (JDict {[ "event" := JStr "signed" ]}) 10 ];
                     tasks := [] |}
                  eq_refl) eq_refl).
Defined.

Lemma model_to_dict_lookup_witness :
  NoDup (model_fields {| WebhookNotification.event := "x";
                         WebhookNotification.data := ∅ |}).*1
  ∧ _model_to_dict {| WebhookNotification.event := "x";
                      WebhookNotification.data := ∅ |} !! "data" = Some (JDict ∅).
Proof.
  assert (NoDup (model_fields {| WebhookNotification.event := "x";
                                 WebhookNotification.data := ∅ |}).*1) as Hdup.
  { simpl. apply NoDup_cons_2; [|apply NoDup_singleton].
    intros Hin. apply list_elem_of_singleton in Hin. discriminate Hin. }
  split; [exact Hdup|].
  apply (proj2 (model_to_dict_lookup
                  {| WebhookNotification.event := "x";
                     WebhookNotification.data := ∅ |} "data" (JDict ∅) Hdup)).
  split; [|reflexivity].
  simpl. apply elem_of_cons. right. apply elem_of_cons. by left.
Defined.

Lemma setup_logger_idempotent_witness :
  handlers {| handlers := [{| stream := Stderr; formatter := None |}]; level := 0 |} ≠ []
  ∧ handlers (setup_logger
       {| handlers := [{| stream := Stderr; formatter := None |}]; level := 0 |})
    = [{| stream := Stderr; formatter := None |}].
Proof.
  assert (handlers {| handlers := [{| stream := Stderr; formatter := None |}];
                      level := 0 |} ≠ []) as Hsome by discriminate.
  split; [exact Hsome|].
  exact (proj1 (proj2 (proj2 (setup_logger_idempotent
    {| handlers := [{| stream := Stderr; formatter := None |}]; level := 0 |}))) Hsome).
Defined.

Lemma start_test_returns_document_witness :
  post inner "/mock-gseal-api"
    (JDict {[ "mock_payload" := JDict ∅;
              "webhook_payload" := JDict {[ "event" := JStr "signed" ]} ]}) 10
    {| trace :=
         [Info "Received /start-test request: %s"
            [JDict {[ "mock_payload" := JDict ∅;
                      "webhook_payload" := JDict {[ "event" := JStr "signed" ]} ]}]];
       tasks := [] |}
  = (Return (JSONResponse 200 (JDict
       {[ "status" := JStr "webhook_scheduled";
          "webhook_payload" := JDict {[ "event" := JStr "signed" ]} ]})),
     {| trace :=
          [ Info "Received /start-test request: %s"
              [JDict {[ "mock_payload" := JDict ∅;
                        "webhook_payload" := JDict {[ "event" := JStr "signed" ]} ]}];
            Post "http://testserver/mock-gseal-api"
              (JDict {[ "mock_payload" := JDict ∅;
                        "webhook_payload" := JDict {[ "event" := JStr "signed" ]} ]})
              10;
            Info "Mock GSeal API received payload: %s"
              [JDict {[ "mock_payload" := JDict ∅;
                        "webhook_payload" := JDict {[ "event" := JStr "signed" ]} ]}] ];
        tasks := [Dispatch_webhook {[ "event" := JStr "signed" ]}] |})
  ∧ (start_test inner
       (Some {| StartTestRequest.mock_payload := ∅;
                StartTestRequest.webhook_payload := Some {[ "event" := JStr "signed" ]} |})
       idle).1 =
    Return {[ "status" := JStr "mock_request_dispatched";
              "mock_api_response" := JDict
                {[ "status" := JStr "webhook_scheduled";
                   "webhook_payload" := JDict {[ "event" := JStr "signed" ]} ]} ]}.
Proof.
  assert (post inner "/mock-gseal-api"
    (JDict {[ "mock_payload" := JDict ∅;
              "webhook_payload" := JDict {[ "event" := JStr "signed" ]} ]}) 10
    {| trace :=
         [Info "Received /start-test request: %s"
            [JDict {[ "mock_payload" := JDict ∅;
                      "webhook_payload" := JDict {[ "event" := JStr "signed" ]} ]}]];
       tasks := [] |}
  = (Return (JSONResponse 200 (JDict
       {[ "status" := JStr "webhook_scheduled";
          "webhook_payload" := JDict {[ "event" := JStr "signed" ]} ]})),
     {| trace :=
          [ Info "Received /start-test request: %s"
              [JDict {[ "mock_payload" := JDict ∅;
                        "webhook_payload" := JDict {[ "event" := JStr "signed" ]} ]}];
            Post "http://testserver/mock-gseal-api"
              (JDict {[ "mock_payload" := JDict ∅;
                        "webhook_payload" := JDict {[ "event" := JStr "signed" ]} ]})
              10;
            Info "Mock GSeal API received payload: %s"
              [JDict {[ "mock_payload" := JDict ∅;
                        "webhook_payload" := JDict {[ "event" := JStr "signed" ]} ]}] ];
        tasks := [Dispatch_webhook {[ "event" := JStr "signed" ]}] |})) as Hpost
    by reflexivity.
  split; [exact Hpost|].
  rewrite (start_test_returns_document (H := pydantic2) (inner (H := pydantic2))
             (Some {| StartTestRequest.mock_payload := ∅;
                      StartTestRequest.webhook_payload :=
                        Some {[ "event" := JStr "signed" ]} |})
             idle _ _ _ Hpost eq_refl eq_refl).
  reflexivity.
Defined.

Lemma start_test_not_json_witness :
  is_success {| status_code := 200; content := Text "OK" |} = true
  ∧ (start_test garbled None idle).1 = Raise ValueError
  ∧ (server (routes garbled) "/start-test" None idle).1
    = Return {| status_code := 500; content := Text "Internal Server Error" |}.
Proof.
  split; [reflexivity|].
  destruct (start_test_not_json garbled None idle
              {| status_code := 200; content := Text "OK" |}
              {| trace :=
                   [ Info "Received /start-test request: %s"
                       [JDict {[ "mock_payload" :=
                                   JDict {[ "document_id" := JStr "demo-document" ]} ]}];
                     Post "http://testserver/mock-gseal-api"
                       (JDict {[ "mock_payload" :=
                                   JDict {[ "document_id" := JStr "demo-document" ]} ]})
                       10 ];
                 tasks := [] |}
              "OK" eq_refl eq_refl eq_refl) as [Hraise Hserver].
  split.
  - by rewrite Hraise.
  - by rewrite (Hserver None eq_refl).
Defined.

Lemma start_test_request_fails_witness :
  (start_test timed_out None idle).1 = Raise (TransportError "timed out")
  ∧ (server (routes timed_out) "/start-test" None idle).1
    = Return {| status_code := 500; content := Text "Internal Server Error" |}.
Proof.
  destruct (start_test_request_fails timed_out None idle
              (TransportError "timed out")
              {| trace :=
                   [ Info "Received /start-test request: %s"
                       [JDict {[ "mock_payload" :=
                                   JDict {[ "document_id" := JStr "demo-document" ]} ]}];
                     Post "http://testserver/mock-gseal-api"
                       (JDict {[ "mock_payload" :=
                                   JDict {[ "document_id" := JStr "demo-document" ]} ]})
                       10 ];
                 tasks := [] |}
              eq_refl) as [Hraise Hserver].
  split.
  - by rewrite Hraise.
  - by rewrite (Hserver None eq_refl).
Defined.

Lemma dispatch_webhook_request_fails_witness :
  dispatch_webhook timed_out {[ "event" := JStr "signed" ]} idle =
  (Raise (TransportError "timed out"),
   {| trace :=
        [ Info "Waiting 1 second before dispatching webhook..." [];
          Sleep 1;
          Post "http://testserver/app-webhook-listener"
            (JDict {[ "event" := JStr "signed" ]}) 10 ];
      tasks := [] |}).
Proof.
  exact (dispatch_webhook_request_fails timed_out {[ "event" := JStr "signed" ]} idle
           (TransportError "timed out")
           {| trace :=
                [ Info "Waiting 1 second before dispatching webhook..." [];
                  Sleep 1;
                  Post "http://testserver/app-webhook-listener"
                    (JDict {[ "event" := JStr "signed" ]}) 10 ];
              tasks := [] |}
           eq_refl).
Defined.




Lemma app_webhook_listener_normalizes_witness :
  serve "/app-webhook-listener"
    (Some (JDict {[ "event" := JStr "signed"; "source" := JStr "gseal" ]})) idle =
  (Return (JSONResponse 200 (JDict
     {[ "status" := JStr "received";
        "payload" := JDict {[ "event" := JStr "signed"; "data" := JDict ∅ ]} ]})),
   {| trace :=
        [Info "Webhook listener received payload: %s"
           [JDict {[ "event" := JStr "signed"; "data" := JDict ∅ ]}]];
      tasks := [] |})
  ∧ ∃ payload : dict,
      JDict {[ "status" := JStr "received";
               "payload" := JDict {[ "event" := JStr "signed"; "data" := JDict ∅ ]} ]}
      = JDict {[ "status" := JStr "received"; "payload" := JDict payload ]}
      ∧ payload !! "event" = Some (JStr "signed")
      ∧ payload !! "data" = Some (JDict ∅)
      ∧ payload !! "source" = None.
Proof.
  assert (serve "/app-webhook-listener"
            (Some (JDict {[ "event" := JStr "signed"; "source" := JStr "gseal" ]})) idle =
          (Return (JSONResponse 200 (JDict
             {[ "status" := JStr "received";
                "payload" := JDict {[ "event" := JStr "signed"; "data" := JDict ∅ ]} ]})),
           {| trace :=
                [Info "Webhook listener received payload: %s"
                   [JDict {[ "event" := JStr "signed"; "data" := JDict ∅ ]}]];
              tasks := [] |})) as E by reflexivity.
  split; [exact E|].
  destruct (proj1 app_webhook_listener_normalizes
              {[ "event" := JStr "signed"; "source" := JStr "gseal" ]}
              idle _ _ E eq_refl)
    as (payload & Hanswer & _ & Hdata & Hother & Hevent & _).
  exists payload.
  split.
  { exact (f_equal (λ c, match c with Json document => document | Text _ => JNull end)
             Hanswer). }
  destruct (Hevent (JStr "signed") eq_refl) as (event & Hstr & Hlookup).
  injection Hstr as <-.
  split; [exact Hlookup|].
  split; [apply Hdata; reflexivity|].
  apply Hother; discriminate.
Defined.

Lemma start_test_succeeds_witness :
  optional_body (Some (JDict {[ "webhook_payload" := JDict {[ "event" := JStr "signed" ]} ]}))
  = Some (Some {| StartTestRequest.mock_payload := StartTestRequest.default_mock_payload;
                  StartTestRequest.webhook_payload := Some {[ "event" := JStr "signed" ]} |})
  ∧ json_compliant (JDict {[ "event" := JStr "signed" ]}) = true
  ∧ ∃ mock_api_response w2,
      post inner "/mock-gseal-api"
        (JDict {[ "mock_payload" := JDict {[ "document_id" := JStr "demo-document" ]};
                  "webhook_payload" := JDict {[ "event" := JStr "signed" ]} ]}) 10
        {| trace :=
             [Info "Received /start-test request: %s"
                [JDict {[ "mock_payload" := JDict {[ "document_id" := JStr "demo-document" ]};
                          "webhook_payload" := JDict {[ "event" := JStr "signed" ]} ]}]];
           tasks := [] |}
        = (Return (JSONResponse 200 mock_api_response), w2)
      ∧ serve "/start-test"
          (Some (JDict {[ "webhook_payload" := JDict {[ "event" := JStr "signed" ]} ]}))
          idle =
        (Return (JSONResponse 200 (JDict
           {[ "status" := JStr "mock_request_dispatched";
              "mock_api_response" := mock_api_response ]})), w2).
Proof.
  assert (optional_body
            (Some (JDict {[ "webhook_payload" := JDict {[ "event" := JStr "signed" ]} ]}))
          = Some (Some {| StartTestRequest.mock_payload :=
                            StartTestRequest.default_mock_payload;
                          StartTestRequest.webhook_payload :=
                            Some {[ "event" := JStr "signed" ]} |})) as E
    by reflexivity.
  split; [exact E|]. split; [reflexivity|].
  exact (proj1 start_test_succeeds _ _ idle E eq_refl).
Defined.


(** ** Counterexamples to the unqualified statements

    Each request below is run on the installation [pydantic2]. *)





(** C6 as worded fails at a [mock_payload] holding a string that cannot be
    encoded, here the lone surrogate U+D800 that the JSON text
    [{"mock_payload": {"k": "\ud800"}}] denotes: the body is a valid
    [StartTestRequest], [/mock-gseal-api] cannot write its answer out, and
    [/start-test] is answered 500. *)
Lemma start_test_succeeds_counterexample :
  let lone_surrogate :=
    String (ascii_of_nat 237) (String (ascii_of_nat 160)
      (String (ascii_of_nat 128) EmptyString)) in
  let body :=
    Some (JDict {[ "mock_payload" := JDict {[ "k" := JStr lone_surrogate ]} ]}) in
  optional_body body
  = Some (Some {| StartTestRequest.mock_payload := {[ "k" := JStr lone_surrogate ]};
                  StartTestRequest.webhook_payload := None |})
  ∧ (serve "/start-test" body idle).1 =
    Return {| status_code := 500; content := Text "Internal Server Error" |}
  ∧ ∀ document,
      (serve "/start-test" body idle).1 ≠ Return (JSONResponse 200 document).
Proof.
  assert (∀ body, body =
            Some (JDict {[ "mock_payload" := JDict {[ "k" := JStr
              (String (ascii_of_nat 237) (String (ascii_of_nat 160)
                (String (ascii_of_nat 128) EmptyString))) ]} ]}) →
          (serve "/start-test" body idle).1 =
          Return {| status_code := 500; content := Text "Internal Server Error" |})
    as Hanswer by (by intros ? ->).
  split; [reflexivity|]. split; [by apply Hanswer|].
  intros document. rewrite Hanswer by done. discriminate.
Qed.

(** ** The further properties, run *)

Lemma app_webhook_listener_echo_idempotent_witness :
  serve "/app-webhook-listener" (Some (JDict {[ "source" := JStr "gseal" ]})) idle =
  (Return (JSONResponse 200 (JDict
     {[ "status" := JStr "received";
        "payload" := JDict {[ "event" := JStr "mock.document.completed";
                              "data" := JDict ∅ ]} ]})),
   {| trace :=
        [Info "Webhook listener received payload: %s"
           [JDict {[ "event" := JStr "mock.document.completed"; "data" := JDict ∅ ]}]];
      tasks := [] |})
  ∧ ∃ payload : dict,
      JDict {[ "status" := JStr "received";
               "payload" := JDict {[ "event" := JStr "mock.document.completed";
                                     "data" := JDict ∅ ]} ]}
      = JDict {[ "status" := JStr "received"; "payload" := JDict payload ]}
      ∧ (serve "/app-webhook-listener" (Some (JDict payload)) idle).1 =
        Return (JSONResponse 200 (JDict
          {[ "status" := JStr "received"; "payload" := JDict payload ]})).
Proof.
  assert (serve "/app-webhook-listener" (Some (JDict {[ "source" := JStr "gseal" ]})) idle =
          (Return (JSONResponse 200 (JDict
             {[ "status" := JStr "received";
                "payload" := JDict {[ "event" := JStr "mock.document.completed";
                                      "data" := JDict ∅ ]} ]})),
           {| trace :=
                [Info "Webhook listener received payload: %s"
                   [JDict {[ "event" := JStr "mock.document.completed";
                             "data" := JDict ∅ ]}]];
              tasks := [] |})) as E by reflexivity.
  split; [exact E|].
  destruct (app_webhook_listener_echo_idempotent
              (Some (JDict {[ "source" := JStr "gseal" ]})) idle _ _ E eq_refl)
    as (payload & Hanswer & Hagain).
  exists payload. split.
  - exact (f_equal (λ c, match c with Json document => document | Text _ => JNull end)
             Hanswer).
  - exact (Hagain idle).
Defined.

Lemma mock_gseal_api_null_override_witness :
  required_body
    (Some (JDict (delete "webhook_payload"
       ({[ "mock_payload" := JDict {[ "document_id" := JStr "doc-1" ]} ]} : dict))))
  = Some {| MockGsealRequest.mock_payload := {[ "document_id" := JStr "doc-1" ]};
            MockGsealRequest.webhook_payload := None |}
  ∧ required_body
      (Some (JDict (<["webhook_payload" := JNull]>
         ({[ "mock_payload" := JDict {[ "document_id" := JStr "doc-1" ]} ]} : dict))))
    = Some {| MockGsealRequest.mock_payload := {[ "document_id" := JStr "doc-1" ]};
              MockGsealRequest.webhook_payload := None |}
  ∧ serve "/mock-gseal-api"
      (Some (JDict (<["webhook_payload" := JNull]>
         ({[ "mock_payload" := JDict {[ "document_id" := JStr "doc-1" ]} ]} : dict))))
      idle
    = serve "/mock-gseal-api"
        (Some (JDict (delete "webhook_payload"
           ({[ "mock_payload" := JDict {[ "document_id" := JStr "doc-1" ]} ]} : dict))))
        idle.
Proof.
  assert (required_body
            (Some (JDict (delete "webhook_payload"
               ({[ "mock_payload" := JDict {[ "document_id" := JStr "doc-1" ]} ]} : dict))))
          = Some {| MockGsealRequest.mock_payload := {[ "document_id" := JStr "doc-1" ]};
                    MockGsealRequest.webhook_payload := None |}) as E
    by reflexivity.
  split; [exact E|].
  destruct (mock_gseal_api_null_override _ _ idle E) as (E' & _ & Hsame).
  split; [exact E'|exact Hsame].
Defined.

Lemma start_test_null_override_witness :
  optional_body (Some (JDict {[ "webhook_payload" := JNull ]}))
  = Some (Some StartTestRequest.new)
  ∧ ({[ "webhook_payload" := JNull ]} : dict) !! "webhook_payload" = Some JNull
  ∧ posts (trace (serve "/start-test"
       (Some (JDict {[ "webhook_payload" := JNull ]})) idle).2) =
    [("http://testserver/mock-gseal-api",
      JDict {[ "mock_payload" := JDict {[ "document_id" := JStr "demo-document" ]} ]})]
  ∧ tasks (serve "/start-test"
       (Some (JDict {[ "webhook_payload" := JNull ]})) idle).2 =
    [Dispatch_webhook
       {[ "event" := JStr "mock.document.completed";
          "data" := JDict
            {[ "status" := JStr "completed";
               "original_payload" := JDict
                 {[ "document_id" := JStr "demo-document" ]} ]} ]}].
Proof.
  assert (optional_body (Some (JDict {[ "webhook_payload" := JNull ]}))
          = Some (Some StartTestRequest.new)) as E by reflexivity.
  split; [exact E|]. split; [reflexivity|].
  exact (proj2 (start_test_null_override _ _ idle E eq_refl)).
Defined.



Lemma start_test_full_run_witness :
  optional_body None = Some (None : option StartTestRequest.t)
  ∧ tasks (run_until_idle (serve "/start-test" None idle).2) = []
  ∧ posts (trace (run_until_idle (serve "/start-test" None idle).2)) =
    [ ("http://testserver/mock-gseal-api",
       JDict {[ "mock_payload" := JDict {[ "document_id" := JStr "demo-document" ]} ]});
      ("http://testserver/app-webhook-listener",
       JDict
         {[ "event" := JStr "mock.document.completed";
            "data" := JDict
              {[ "status" := JStr "completed";
                 "original_payload" := JDict
                   {[ "document_id" := JStr "demo-document" ]} ]} ]}) ].
Proof.
  assert (optional_body None = Some (None : option StartTestRequest.t)) as E
    by reflexivity.
  split; [exact E|].
  exact (start_test_full_run None None idle E).
Defined.


Lemma undeliverable_payload_fails_witness :
  let lone_surrogate :=
    String (ascii_of_nat 237) (String (ascii_of_nat 160)
      (String (ascii_of_nat 128) EmptyString)) in
  let webhook_payload : dict := {[ "event" := JStr lone_surrogate ]} in
  let received : dict := {[ "event" := JStr lone_surrogate; "data" := JDict ∅ ]} in
  required_body (Some (JDict webhook_payload))
  = Some {| WebhookNotification.event := lone_surrogate;
            WebhookNotification.data := ∅ |}
  ∧ rendered (JDict received) = None
  ∧ run_coroutine (Dispatch_webhook webhook_payload) idle =
    (Raise ValueError,
     {| trace :=
          [ Info "Waiting 1 second before dispatching webhook..." [];
            Sleep 1;
            Post "http://testserver/app-webhook-listener" (JDict webhook_payload) 10;
            Info "Webhook listener received payload: %s" [JDict received] ];
        tasks := [] |}).
Proof.
  split; [reflexivity|]. split; [reflexivity|].
  exact (proj1 (undeliverable_payload_fails
                  {[ "event" := JStr (String (ascii_of_nat 237) (String (ascii_of_nat 160)
                                        (String (ascii_of_nat 128) EmptyString))) ]}
                  {| WebhookNotification.event :=
                       String (ascii_of_nat 237) (String (ascii_of_nat 160)
                         (String (ascii_of_nat 128) EmptyString));
                     WebhookNotification.data := ∅ |}
                  idle eq_refl eq_refl)).
Defined.
